(** * MindMirror AI: the analysis gateway of [src/server/server.js]

    A shallow embedding of the server's request path
    ([extractRetryDelay], [callGeminiAPI] and the [POST /api/analyze]
    handler) together with the part of the JavaScript runtime these
    functions rely on (strings of UTF-16 code units, IEEE doubles,
    property reads, [ToBoolean], [ToString], [parseInt], [JSON.parse]).

    Layout: module [JS] holds the runtime, section [Gateway] holds the
    server code, the remaining sections hold the properties. *)

From Stdlib Require Import List Bool Arith NArith ZArith Lia.
From Stdlib Require Import Ascii String DecimalString.
From Stdlib Require Import PrimFloat FloatOps SpecFloat.
Import ListNotations.

Set Implicit Arguments.

(* ================================================================== *)
(** * The JavaScript runtime                                           *)
(* ================================================================== *)

Module JS.

(** ** Strings

    A JavaScript string is a sequence of 16-bit code units; [length],
    [substring], [trim] and the regular expressions of the server all
    work on code units. *)

Definition jsstring := list N.

(** An ASCII literal as a JavaScript string. *)
Definition js (s : string) : jsstring :=
  map N_of_ascii (list_ascii_of_string s).

(** A literal in which the apostrophe stands for the double quote
    (code unit 34); used to write JSON texts. *)
Definition jsq (s : string) : jsstring :=
  map (fun c => if N.eqb c 39 then 34%N else c) (js s).

Definition LF : N := 10.

Fixpoint streq (s t : jsstring) : bool :=
  match s, t with
  | [], [] => true
  | c :: s', d :: t' => N.eqb c d && streq s' t'
  | _, _ => false
  end.

(** WhiteSpace and LineTerminator of ECMA-262, the code units removed by
    [String.prototype.trim] and skipped by [parseInt]. *)
Definition isWhiteSpace (c : N) : bool :=
  existsb (N.eqb c)
    [9; 10; 11; 12; 13; 32; 160; 5760; 8232; 8233; 8239; 8287; 12288; 65279]%N
  || (N.leb 8192 c && N.leb c 8202).

Fixpoint trimStart (s : jsstring) : jsstring :=
  match s with
  | c :: s' => if isWhiteSpace c then trimStart s' else s
  | [] => []
  end.

Definition trimEnd (s : jsstring) : jsstring := rev (trimStart (rev s)).

(** [s.trim()] *)
Definition trim (s : jsstring) : jsstring := trimEnd (trimStart s).

(** [s.startsWith(p)] *)
Fixpoint startsWith (s p : jsstring) : bool :=
  match p, s with
  | [], _ => true
  | d :: p', c :: s' => N.eqb c d && startsWith s' p'
  | _ :: _, [] => false
  end.

(** [s.includes(p)] *)
Fixpoint includes (s p : jsstring) : bool :=
  startsWith s p ||
  match s with
  | [] => false
  | _ :: s' => includes s' p
  end.

(** [s.length] *)
Definition len (s : jsstring) : Z := Z.of_nat (List.length s).

(** [s.substring(0, n)] *)
Definition substring0 (s : jsstring) (n : nat) : jsstring := firstn n s.

(** [s.replace(/lit\n?/g, '')] for a non-empty literal [lit]: scanning
    from the left, every occurrence of [lit], with the line feed that
    may follow it, is removed.  [skip] counts the code units of the
    current match that are still to be dropped. *)
Fixpoint removeAll (lit : jsstring) (skip : nat) (s : jsstring) : jsstring :=
  match s with
  | [] => []
  | c :: rest =>
      match skip with
      | S k => removeAll lit k rest
      | O =>
          if startsWith s lit then
            let nl := match skipn (List.length lit) s with
                      | d :: _ => if N.eqb d LF then 1 else 0
                      | [] => 0
                      end in
            removeAll lit (List.length lit - 1 + nl) rest
          else c :: removeAll lit 0 rest
      end
  end.

(** ** Numbers

    Numbers are IEEE 754 binary64 values. *)

Definition number := float.

(** The double nearest to an integer (ties to even). *)
Definition Number_ofZ (z : Z) : number :=
  SF2Prim (binary_normalize 53 1024 z 0 false).

(** The double nearest to [m * 10^e], for [0 <= m].  For a negative
    exponent the quotient is computed with 64 extra bits and a sticky
    bit, which decides the rounding exactly. *)
Definition Number_ofDecimal (m e : Z) : number :=
  if (0 <=? e)%Z then Number_ofZ (m * 10 ^ e)
  else
    let d := (10 ^ (- e))%Z in
    let k := (Z.log2 d + 64)%Z in
    let q := ((m * 2 ^ k) / d)%Z in
    let sticky := if ((m * 2 ^ k) mod d =? 0)%Z then 0%Z else 1%Z in
    SF2Prim (binary_normalize 53 1024 (2 * q + sticky) (- (k + 1)) false).

Definition decimalOfZ (z : Z) : jsstring :=
  js (NilZero.string_of_uint (N.to_uint (Z.to_N z))).

Definition decimalOfN (n : N) : jsstring :=
  js (NilZero.string_of_uint (N.to_uint n)).

(** [Number::toString] (radix 10), ECMA-262 6.1.6.1.20: the shortest
    decimal [s * 10^(n-k)] with [k] digits that reads back as [x]. *)

(** [m * 2^e < 10^n] *)
Definition ltPow10 (m e n : Z) : bool :=
  (m * 2 ^ Z.max e 0 * 10 ^ Z.max (- n) 0 <? 10 ^ Z.max n 0 * 2 ^ Z.max (- e) 0)%Z.

(** the least [n] from [n0] on with [m * 2^e < 10^n] *)
Fixpoint decimalExponent (fuel : nat) (m e n0 : Z) : Z :=
  match fuel with
  | O => n0
  | S f => if ltPow10 m e n0 then n0 else decimalExponent f m e (n0 + 1)
  end.

(** [floor (m * 2^e * 10^p)] *)
Definition scaledFloor (m e p : Z) : Z :=
  ((m * 2 ^ Z.max e 0 * 10 ^ Z.max p 0) / (2 ^ Z.max (- e) 0 * 10 ^ Z.max (- p) 0))%Z.

(** [|s * 10^p - m * 2^e|] as a fraction over the common denominator
    [2^max(-e,0) * 10^max(-p,0)]; only numerators are compared. *)
Definition distance (m e s p : Z) : Z :=
  Z.abs (s * 10 ^ Z.max p 0 * 2 ^ Z.max (- e) 0
         - m * 2 ^ Z.max e 0 * 10 ^ Z.max (- p) 0)%Z.

(** is [(s1, n1)] a better choice than [(s2, n2)] with [k] digits *)
Definition closer (m e k : Z) (c1 c2 : Z * Z) : bool :=
  let '(s1, n1) := c1 in
  let '(s2, n2) := c2 in
  let d1 := (distance m e s1 (n1 - k) * 10 ^ Z.max (k - n2) 0)%Z in
  let d2 := (distance m e s2 (n2 - k) * 10 ^ Z.max (k - n1) 0)%Z in
  (d1 <? d2)%Z || ((d1 =? d2)%Z && Z.even s1).

Definition candidates (x : number) (m e n0 k : Z) : list (Z * Z) :=
  filter
    (fun c : Z * Z =>
       let '(s, n) := c in
       (10 ^ (k - 1) <=? s)%Z && (s <? 10 ^ k)%Z
       && PrimFloat.eqb (Number_ofDecimal s (n - k)) x)
    (flat_map
       (fun n => let s := scaledFloor m e (k - n) in [(s, n); ((s + 1)%Z, n)])
       [n0; (n0 + 1)%Z]).

Definition best (m e k : Z) (cs : list (Z * Z)) : option (Z * Z) :=
  fold_left
    (fun acc c =>
       match acc with
       | None => Some c
       | Some b => if closer m e k c b then Some c else Some b
       end) cs None.

(** the triple [(s, n, k)] of the standard, searching [k] upwards *)
Fixpoint shortest (fuel : nat) (x : number) (m e n0 k : Z) : Z * Z * Z :=
  match best m e k (candidates x m e n0 k) with
  | Some (s, n) => (s, n, k)
  | None =>
      match fuel with
      | O => (scaledFloor m e (k - n0), n0, k)
      | S f => shortest f x m e n0 (k + 1)
      end
  end.

Definition zeros (n : Z) : jsstring := repeat 48%N (Z.to_nat n).

Definition formatDecimal (s n k : Z) : jsstring :=
  let digits := decimalOfZ s in
  if ((k <=? n) && (n <=? 21))%Z then digits ++ zeros (n - k)
  else if ((0 <? n) && (n <=? 21))%Z then
    firstn (Z.to_nat n) digits ++ js "." ++ skipn (Z.to_nat n) digits
  else if ((-6 <? n) && (n <=? 0))%Z then js "0." ++ zeros (- n) ++ digits
  else
    let ex := (n - 1)%Z in
    let sign := if (ex <? 0)%Z then js "-" else js "+" in
    let mant := if (k =? 1)%Z then digits
                else firstn 1 digits ++ js "." ++ skipn 1 digits in
    mant ++ js "e" ++ sign ++ decimalOfZ (Z.abs ex).

Definition Number_toString (x : number) : jsstring :=
  match Prim2SF x with
  | S754_nan => js "NaN"
  | S754_zero _ => js "0"
  | S754_infinity neg => if neg then js "-Infinity" else js "Infinity"
  | S754_finite neg m e =>
      let m := Zpos m in
      let estimate := ((Z.log2 m + e) * 30103 / 100000 - 1)%Z in
      let n0 := decimalExponent 4 m e estimate in
      let '(s, n, k) := shortest 16 (abs x) m e n0 1 in
      (if neg then js "-" else []) ++ formatDecimal s n k
  end.

(** ** Values

    The values [JSON.parse] produces, and [undefined], which property
    reads produce.  An object is the list of its own properties. *)

#[local] Set Warnings "-register-all".

Inductive value : Type :=
| VUndefined
| VNull
| VBool (b : bool)
| VNumber (x : number)
| VString (s : jsstring)
| VArray (elements : list value)
| VObject (properties : list (jsstring * value)).

(** Exceptions thrown by the runtime itself. *)
Inductive exn : Type :=
| SyntaxError (text : jsstring)              (* JSON.parse(text) *)
| TypeError_read (base : value) (key : jsstring) (* null.key, undefined.key *)
| TypeError_notFunction (callee : jsstring)  (* v.trim() on a non-string *)
| TypeError_toPrimitive.                     (* ToString of an object *)

(** The outcome of evaluating an expression. *)
Inductive completion (A : Type) : Type :=
| Normal (a : A)
| Throw (e : exn).
Arguments Normal {A} a.
Arguments Throw {A} e.

Definition bind {A B} (c : completion A) (k : A -> completion B) : completion B :=
  match c with
  | Normal a => k a
  | Throw e => Throw e
  end.

Declare Scope js_scope.
Delimit Scope js_scope with js_scope.
Notation "'let?' x ':=' c 'in' k" := (bind c (fun x => k))
  (at level 10, x name, c at level 100, k at level 200) : js_scope.
Open Scope js_scope.

(** [ToBoolean] *)
Definition truthy (v : value) : bool :=
  match v with
  | VUndefined | VNull => false
  | VBool b => b
  | VNumber x => negb (is_zero x || is_nan x)
  | VString s => negb (streq s [])
  | VArray _ | VObject _ => true
  end.

Fixpoint lookup (k : jsstring) (props : list (jsstring * value)) : option value :=
  match props with
  | [] => None
  | (k', v) :: rest => if streq k' k then Some v else lookup k rest
  end.

Definition isDigit (c : N) : bool := N.leb 48 c && N.leb c 57.

Fixpoint digitsValue (acc : Z) (ds : jsstring) : Z :=
  match ds with
  | [] => acc
  | c :: ds' => digitsValue (10 * acc + (Z.of_N c - 48))%Z ds'
  end.

(** A canonical array index: ["0"], or digits without a leading zero. *)
Definition arrayIndex (k : jsstring) : option nat :=
  match k with
  | [] => None
  | c :: rest =>
      if forallb isDigit k && (negb (N.eqb c 48) || streq rest [])
      then Some (Z.to_nat (digitsValue 0 k))
      else None
  end.

Definition orUndefined (o : option value) : value :=
  match o with
  | Some v => v
  | None => VUndefined
  end.

(** The property read [v.k] (or [v[k]]).  Only own properties, the
    [length] of strings and arrays and their indexed elements are
    modelled; the server reads no inherited name (no method, no
    [constructor]) from the values it receives. *)
Definition Get (v : value) (k : jsstring) : completion value :=
  match v with
  | VUndefined | VNull => Throw (TypeError_read v k)
  | VBool _ | VNumber _ => Normal VUndefined
  | VString s =>
      if streq k (js "length") then Normal (VNumber (Number_ofZ (Z.of_nat (List.length s))))
      else match arrayIndex k with
           | Some i => Normal (match nth_error s i with
                               | Some c => VString [c]
                               | None => VUndefined
                               end)
           | None => Normal VUndefined
           end
  | VArray xs =>
      if streq k (js "length") then Normal (VNumber (Number_ofZ (Z.of_nat (List.length xs))))
      else match arrayIndex k with
           | Some i => Normal (orUndefined (nth_error xs i))
           | None => Normal VUndefined
           end
  | VObject props => Normal (orUndefined (lookup k props))
  end.

(** The optional chain [v?.k]. *)
Definition GetOptional (v : value) (k : jsstring) : completion value :=
  match v with
  | VUndefined | VNull => Normal VUndefined
  | _ => Get v k
  end.

(** [Array.isArray] *)
Definition isArray (v : value) : bool :=
  match v with
  | VArray _ => true
  | _ => false
  end.

(** The values a [for ... of] loop visits in an array. *)
Definition elements (v : value) : list value :=
  match v with
  | VArray xs => xs
  | _ => []
  end.

Fixpoint joinComma (parts : list jsstring) : jsstring :=
  match parts with
  | [] => []
  | [p] => p
  | p :: rest => p ++ js "," ++ joinComma rest
  end.

(** [ToString].  An array is joined with commas, [null] and [undefined]
    elements giving the empty string.  A plain object has no callable
    own [toString], so it prints as ["[object Object]"] unless an own
    property hides [Object.prototype.toString], in which case no
    primitive is obtained and a TypeError is thrown. *)
Fixpoint ToString (v : value) : completion jsstring :=
  match v with
  | VUndefined => Normal (js "undefined")
  | VNull => Normal (js "null")
  | VBool b => Normal (if b then js "true" else js "false")
  | VNumber x => Normal (Number_toString x)
  | VString s => Normal s
  | VArray xs =>
      let fix elems (l : list value) : completion (list jsstring) :=
          match l with
          | [] => Normal []
          | x :: l' =>
              let? s := match x with
                        | VUndefined | VNull => Normal []
                        | _ => ToString x
                        end in
              let? ss := elems l' in
              Normal (s :: ss)
          end in
      let? parts := elems xs in
      Normal (joinComma parts)
  | VObject props =>
      match lookup (js "toString") props with
      | Some _ => Throw TypeError_toPrimitive
      | None => Normal (js "[object Object]")
      end
  end.

Definition takeDigits (s : jsstring) : jsstring * jsstring :=
  let fix go (s : jsstring) : jsstring * jsstring :=
      match s with
      | c :: s' => if isDigit c then let '(ds, r) := go s' in (c :: ds, r)
                   else ([], s)
      | [] => ([], [])
      end in
  go s.

(** [parseInt(v, 10)]: leading white space is skipped, a sign is read,
    then the longest run of decimal digits; no digit gives [NaN]. *)
Definition parseInt10 (v : value) : completion number :=
  let? input := ToString v in
  let s := trimStart input in
  let '(negative, s) :=
    match s with
    | c :: s' => if N.eqb c 45 then (true, s')
                 else if N.eqb c 43 then (false, s') else (false, s)
    | [] => (false, s)
    end in
  let '(ds, _) := takeDigits s in
  match ds with
  | [] => Normal nan
  | _ => let x := Number_ofZ (digitsValue 0 ds) in
         Normal (if negative then opp x else x)
  end.

(** ** JSON.parse *)

Definition isJSONWhiteSpace (c : N) : bool :=
  N.eqb c 32 || N.eqb c 9 || N.eqb c 10 || N.eqb c 13.

Fixpoint skipWhiteSpace (s : jsstring) : jsstring :=
  match s with
  | c :: s' => if isJSONWhiteSpace c then skipWhiteSpace s' else s
  | [] => []
  end.

Definition hexValue (c : N) : option N :=
  if isDigit c then Some (c - 48)%N
  else if N.leb 65 c && N.leb c 70 then Some (c - 55)%N
  else if N.leb 97 c && N.leb c 102 then Some (c - 87)%N
  else None.

Definition hex4 (a b c d : N) : option N :=
  match hexValue a, hexValue b, hexValue c, hexValue d with
  | Some a, Some b, Some c, Some d => Some (((a * 16 + b) * 16 + c) * 16 + d)%N
  | _, _, _, _ => None
  end.

(** The characters of a string literal after its opening quote; [acc]
    holds the code units read so far, last first. *)
Fixpoint parseChars (acc s : jsstring) : option (jsstring * jsstring) :=
  match s with
  | [] => None
  | c :: rest =>
      if N.eqb c 34 then Some (rev acc, rest)
      else if N.eqb c 92 then
        match rest with
        | [] => None
        | e :: rest' =>
            if N.eqb e 34 || N.eqb e 92 || N.eqb e 47 then parseChars (e :: acc) rest'
            else if N.eqb e 98 then parseChars (8%N :: acc) rest'
            else if N.eqb e 102 then parseChars (12%N :: acc) rest'
            else if N.eqb e 110 then parseChars (10%N :: acc) rest'
            else if N.eqb e 114 then parseChars (13%N :: acc) rest'
            else if N.eqb e 116 then parseChars (9%N :: acc) rest'
            else if N.eqb e 117 then
              match rest' with
              | h1 :: h2 :: h3 :: h4 :: rest'' =>
                  match hex4 h1 h2 h3 h4 with
                  | Some u => parseChars (u :: acc) rest''
                  | None => None
                  end
              | _ => None
              end
            else None
        end
      else if N.ltb c 32 then None
      else parseChars (c :: acc) rest
  end.

(** A number literal: an optional minus sign; an integer part, either
    a single 0 or digits not starting with 0; an optional fraction, a dot
    and at least one digit; an optional exponent, e or E, an optional
    sign and at least one digit. *)
Definition parseNumber (s : jsstring) : option (number * jsstring) :=
  let '(negative, s) :=
    match s with
    | c :: s' => if N.eqb c 45 then (true, s') else (false, s)
    | [] => (false, s)
    end in
  let '(int, s) := takeDigits s in
  match int with
  | [] => None
  | d :: more =>
      if N.eqb d 48 && negb (streq more []) then None
      else
        let frac :=
          match s with
          | c :: s' =>
              if N.eqb c 46 then
                match takeDigits s' with
                | ([], _) => None
                | (fs, r) => Some (fs, r)
                end
              else Some ([], s)
          | [] => Some ([], s)
          end in
        match frac with
        | None => None
        | Some (fs, s) =>
            let expo :=
              match s with
              | c :: s' =>
                  if N.eqb c 101 || N.eqb c 69 then
                    let '(eneg, s'') :=
                      match s' with
                      | g :: t => if N.eqb g 45 then (true, t)
                                  else if N.eqb g 43 then (false, t) else (false, s')
                      | [] => (false, s')
                      end in
                    match takeDigits s'' with
                    | ([], _) => None
                    | (es, r) =>
                        let e := digitsValue 0 es in
                        Some (if eneg then (- e)%Z else e, r)
                    end
                  else Some (0%Z, s)
              | [] => Some (0%Z, s)
              end in
            match expo with
            | None => None
            | Some (e, s) =>
                let x := Number_ofDecimal (digitsValue 0 (int ++ fs))
                                          (e - Z.of_nat (List.length fs)) in
                Some (if negative then opp x else x, s)
            end
        end
  end.

(** [CreateDataProperty]: a repeated key keeps its place and takes the
    later value. *)
Fixpoint setProperty (k : jsstring) (v : value) (props : list (jsstring * value))
  : list (jsstring * value) :=
  match props with
  | [] => [(k, v)]
  | (k', v') :: rest =>
      if streq k' k then (k', v) :: rest else (k', v') :: setProperty k v rest
  end.

Definition expect (lit : jsstring) (v : value) (s : jsstring)
  : option (value * jsstring) :=
  if startsWith s lit then Some (v, skipn (List.length lit) s) else None.

(** The recursive-descent parser.  [fuel] bounds the depth of the
    calls: an opening bracket costs two of them and comes with its
    closing bracket, each further element or member costs one and comes
    with its comma, so the length of the text, plus one, is enough. *)
Fixpoint parseValue (fuel : nat) (s : jsstring) : option (value * jsstring) :=
  match fuel with
  | O => None
  | S fuel' =>
      match skipWhiteSpace s with
      | [] => None
      | c :: rest =>
          if N.eqb c 123 then
            match skipWhiteSpace rest with
            | d :: rest' =>
                if N.eqb d 125 then Some (VObject [], rest')
                else parseMembers fuel' [] (skipWhiteSpace rest)
            | [] => None
            end
          else if N.eqb c 91 then
            match skipWhiteSpace rest with
            | d :: rest' =>
                if N.eqb d 93 then Some (VArray [], rest')
                else parseElements fuel' [] rest
            | [] => None
            end
          else if N.eqb c 34 then
            match parseChars [] rest with
            | Some (str, r) => Some (VString str, r)
            | None => None
            end
          else if N.eqb c 116 then expect (js "true") (VBool true) (c :: rest)
          else if N.eqb c 102 then expect (js "false") (VBool false) (c :: rest)
          else if N.eqb c 110 then expect (js "null") VNull (c :: rest)
          else
            match parseNumber (c :: rest) with
            | Some (x, r) => Some (VNumber x, r)
            | None => None
            end
      end
  end

(** the elements of an array after [[] or [,]; [acc] is reversed *)
with parseElements (fuel : nat) (acc : list value) (s : jsstring)
  : option (value * jsstring) :=
  match fuel with
  | O => None
  | S fuel' =>
      match parseValue fuel' s with
      | None => None
      | Some (v, r) =>
          match skipWhiteSpace r with
          | c :: r' =>
              if N.eqb c 44 then parseElements fuel' (v :: acc) r'
              else if N.eqb c 93 then Some (VArray (rev (v :: acc)), r')
              else None
          | [] => None
          end
      end
  end

(** the members of an object after [{] or [,], white space skipped *)
with parseMembers (fuel : nat) (acc : list (jsstring * value)) (s : jsstring)
  : option (value * jsstring) :=
  match fuel with
  | O => None
  | S fuel' =>
      match s with
      | q :: s' =>
          if N.eqb q 34 then
            match parseChars [] s' with
            | None => None
            | Some (k, r) =>
                match skipWhiteSpace r with
                | colon :: r' =>
                    if N.eqb colon 58 then
                      match parseValue fuel' r' with
                      | None => None
                      | Some (v, r'') =>
                          match skipWhiteSpace r'' with
                          | c :: t =>
                              if N.eqb c 44
                              then parseMembers fuel' (setProperty k v acc) (skipWhiteSpace t)
                              else if N.eqb c 125
                              then Some (VObject (setProperty k v acc), t)
                              else None
                          | [] => None
                          end
                      end
                    else None
                | [] => None
                end
            end
          else None
      | [] => None
      end
  end.

(** [JSON.parse(text)]; [None] stands for the SyntaxError it throws. *)
Definition JSON_parse (text : jsstring) : option value :=
  match parseValue (S (List.length text)) text with
  | Some (v, rest) =>
      match skipWhiteSpace rest with
      | [] => Some v
      | _ :: _ => None
      end
  | None => None
  end.

End JS.

Import JS.
Open Scope js_scope.

(* ================================================================== *)
(** * The gateway: [src/server/server.js]                              *)
(* ================================================================== *)

Module Server.

(** What becomes of one outbound request: the response whose body has
    been accumulated when ['end'] fires, or the ['error'] event. *)
Inductive outcome : Type :=
| Response (statusCode : N) (data : jsstring)
| NetworkError (message : jsstring).

(** What the gateway does to the outside world. *)
Inductive event : Type :=
| Request (modelName userText : jsstring)   (* POST .../models/{modelName}:generateContent *)
| Delay (seconds : number).                 (* delay(seconds) *)

(** The requests sent so far and the log of events, oldest first. *)
Record world : Type := { sent : nat; trace : list event }.

(** How a promise settles; a rejection carries the message of its
    [Error], the only part of it the server reads. *)
Inductive settled (A : Type) : Type :=
| Resolved (a : A)
| Rejected (message : jsstring).
Arguments Resolved {A} a.
Arguments Rejected {A} message.

Record AnalysisResult : Type := {
  sentiment : value;
  themes : value;
  tone : value;
  summary : value
}.

(** The JSON bodies of [POST /api/analyze]. *)
Inductive body : Type :=
| Success (analysis : AnalysisResult)   (* { success: true, analysis } *)
| Failure (error : jsstring).           (* { success: false, error } *)

Record httpResponse : Type := { status : N; json : body }.

(** Asynchronous code: a computation over the world. *)
Definition M (A : Type) : Type := world -> A * world.

Definition ret {A} (a : A) : M A := fun w => (a, w).

Definition seq {A B} (c : M A) (k : A -> M B) : M B :=
  fun w => let '(a, w') := c w in k a w'.

Notation "x <- c ;; k" := (seq c (fun x => k))
  (at level 61, c at next level, right associativity).
Notation "c ;;; k" := (seq c (fun _ => k))
  (at level 61, right associativity).

(** [a && b] and [a || b] on values. *)
Definition andAlso (a : value) (b : completion value) : completion value :=
  if truthy a then b else Normal a.

Definition orElse (a : value) (b : completion value) : completion value :=
  if truthy a then Normal a else b.

(** lines 207-212: the candidate text without its markdown fence *)
Definition stripFence (textResponse : jsstring) : jsstring :=
  let jsonText := trim textResponse in
  if startsWith jsonText (js "```json") then
    trim (removeAll (js "```") 0 (removeAll (js "```json") 0 jsonText))
  else if startsWith jsonText (js "```") then
    trim (removeAll (js "```") 0 jsonText)
  else jsonText.

(** lines 226-231 *)
Definition fallback (textResponse : jsstring) : AnalysisResult :=
  {| sentiment := VString (js "neutral");
     themes := VArray [];
     tone := VString (js "mixed");
     summary := VString (substring0 textResponse 500) |}.

(** lines 214-232: the inner [try]; whatever is thrown in it is caught
    and answered with the fallback. *)
Definition parseAnalysis (textResponse jsonText : jsstring) : AnalysisResult :=
  let attempt :=
    let? analysis := match JSON_parse jsonText with
                     | Some v => Normal v
                     | None => Throw (SyntaxError jsonText)
                     end in
    let? s := Get analysis (js "sentiment") in
    let? th := Get analysis (js "themes") in
    let? t := Get analysis (js "tone") in
    let? su := Get analysis (js "summary") in
    Normal {| sentiment := if truthy s then s else VString (js "neutral");
              themes := if isArray th then th else VArray [];
              tone := if truthy t then t else VString (js "Not specified");
              summary := if truthy su then su
                         else VString (substring0 textResponse 200) |} in
  match attempt with
  | Normal a => a
  | Throw _ => fallback textResponse
  end.

(** lines 188-238: a 200 response *)
Definition readCandidate (response : value) : completion (settled AnalysisResult) :=
  let? candidates := Get response (js "candidates") in
  let? candidate := andAlso candidates (Get candidates (js "0")) in
  if truthy candidate then
    let? _ := Get candidate (js "finishReason") in
    let? content := Get candidate (js "content") in
    let? parts := andAlso content (Get content (js "parts")) in
    let? part := andAlso parts (Get parts (js "0")) in
    if truthy part then
      let? textResponse := Get part (js "text") in
      if negb (truthy textResponse) then
        Normal (Rejected (js "Empty response from Gemini API"))
      else
        match textResponse with
        | VString text => Normal (Resolved (parseAnalysis text (stripFence text)))
        | _ => Throw (TypeError_notFunction (js "textResponse.trim"))
        end
    else Normal (Rejected (js "Invalid response format: missing content.parts"))
  else Normal (Rejected (js "Invalid response format: missing candidates")).

(** lines 182-186: any other status than 200 *)
Definition readError (statusCode : N) (response : value)
  : completion (settled AnalysisResult) :=
  let? error := Get response (js "error") in
  let? message := GetOptional error (js "message") in
  let? errorMessage :=
    orElse message
      (let? code := GetOptional error (js "code") in
       orElse code
         (Normal (VString (js "API request failed with status "
                           ++ decimalOfN statusCode)))) in
  let? text := ToString errorMessage in
  Normal (Rejected text).

(** lines 81-85: the [for ... of] loop *)
Fixpoint firstRetryDelay (details : list value) : completion (option number) :=
  match details with
  | [] => Normal None
  | detail :: rest =>
      let? retryDelay := Get detail (js "retryDelay") in
      if truthy retryDelay then
        let? seconds := parseInt10 retryDelay in
        Normal (Some seconds)
      else firstRetryDelay rest
  end.

(** lines 78-91 *)
Definition extractRetryDelay (errorResponse : value) : number :=
  let attempt :=
    let? error := Get errorResponse (js "error") in
    let? details := GetOptional error (js "details") in
    if truthy details && isArray details
    then firstRetryDelay (elements details)
    else Normal None in
  match attempt with
  | Normal (Some seconds) => seconds
  | Normal None => 30%float
  | Throw _ => 30%float                 (* catch (e) { } *)
  end.

(** line 286 *)
Definition alternativeModels : list jsstring :=
  [js "gemini-1.5-flash-latest"; js "gemini-1.5-flash"; js "gemini-1.5-pro"].

Definition allModelsFailed : jsstring :=
  js "All models failed. Check available models at /api/models or in server logs.".

Definition pleaseProvide : jsstring := js "Please provide valid text to analyze".

Definition tooLong : jsstring :=
  js "Text is too long. Maximum 10,000 characters allowed.".

Definition genericFailure : jsstring :=
  js "An error occurred while analyzing the text. Please try again.".

(** line 284 *)
Definition modelNotFound (message : jsstring) : bool :=
  truthy (VString message)
  && (includes message (js "not found") || includes message (js "is not found")).

Section Gateway.

(** The wording the engine gives to the exceptions it throws. *)
Variable exn_message : exn -> jsstring.

(** The configured model, [process.env.GEMINI_MODEL || 'gemma-3-27b-it']. *)
Variable GEMINI_MODEL : jsstring.

(** The remote provider: the outcome of the [n]-th request sent. *)
Variable remote : nat -> outcome.

(** [https.request] followed by [req.write; req.end], up to the
    ['end'] or ['error'] event. *)
Definition send (modelName userText : jsstring) : M outcome :=
  fun w => (remote (sent w),
            {| sent := S (sent w);
               trace := trace w ++ [Request modelName userText] |}).

(** lines 73-75 *)
Definition delay (seconds : number) : M unit :=
  fun w => (tt, {| sent := sent w; trace := trace w ++ [Delay seconds] |}).

(** lines 181-243 with the [catch] of line 239: what the ['end']
    handler settles the promise with when it does not retry. *)
Definition settle (statusCode : N) (response : value) : settled AnalysisResult :=
  let outcome :=
    if negb (N.eqb statusCode 200) then readError statusCode response
    else readCandidate response in
  match outcome with
  | Normal r => r
  | Throw e => Rejected (js "Failed to parse API response: " ++ exn_message e)
  end.

(** lines 94-256.  [budget] is [maxRetries - retryCount], so that
    [budget = S _] is the test [retryCount < maxRetries] of line 171
    (see [callGeminiAPI_equation]). *)
Fixpoint attempts (budget : nat) (userText modelName : jsstring)
         (retryCount : nat) : M (settled AnalysisResult) :=
  o <- send modelName userText ;;
  match o with
  | NetworkError message => ret (Rejected (js "Request failed: " ++ message))
  | Response statusCode data =>
      match JSON_parse data with
      | None =>
          ret (Rejected (js "Failed to parse API response: "
                         ++ exn_message (SyntaxError data)))
      | Some response =>
          match budget with
          | S budget' =>
              if N.eqb statusCode 429 then
                delay (extractRetryDelay response) ;;;
                attempts budget' userText modelName (S retryCount)
              else ret (settle statusCode response)
          | O => ret (settle statusCode response)
          end
      end
  end.

Definition callGeminiAPI (userText modelName : jsstring)
           (retryCount maxRetries : nat) : M (settled AnalysisResult) :=
  attempts (maxRetries - retryCount) userText modelName retryCount.

(** lines 288-299: the loop over the alternative models *)
Fixpoint tryModels (text : jsstring) (models : list jsstring)
  : M (option AnalysisResult) :=
  match models with
  | [] => ret None
  | altModel :: rest =>
      if streq altModel GEMINI_MODEL then tryModels text rest
      else
        r <- callGeminiAPI text altModel 0 3 ;;
        match r with
        | Resolved analysis => ret (Some analysis)
        | Rejected _ => tryModels text rest
        end
  end.

(** line 319 *)
Definition serverError (message : jsstring) : httpResponse :=
  {| status := 500;
     json := Failure (if truthy (VString message) then message
                      else genericFailure) |}.

Definition clientError (message : jsstring) : httpResponse :=
  {| status := 400; json := Failure message |}.

Definition ok (analysis : AnalysisResult) : httpResponse :=
  {| status := 200; json := Success analysis |}.

(** lines 259-322: [app.post('/api/analyze')]; [reqBody] is [req.body]. *)
Definition analyze (reqBody : value) : M httpResponse :=
  match Get reqBody (js "text") with
  | Throw e => ret (serverError (exn_message e))
  | Normal text =>
      match text with
      | VString s =>
          if negb (truthy text) || (len (trim s) =? 0)%Z then
            ret (clientError pleaseProvide)
          else if (10000 <? len s)%Z then
            ret (clientError tooLong)
          else
            r <- callGeminiAPI (trim s) GEMINI_MODEL 0 3 ;;
            match r with
            | Resolved analysis => ret (ok analysis)
            | Rejected message =>
                if modelNotFound message then
                  found <- tryModels (trim s) alternativeModels ;;
                  match found with
                  | Some analysis => ret (ok analysis)
                  | None => ret (serverError allModelsFailed)
                  end
                else ret (serverError message)
            end
      | _ => ret (clientError pleaseProvide)   (* !text, or not a string *)
      end
  end.

End Gateway.

End Server.

Import Server.

(* ================================================================== *)
(** * The model catalog: [listAvailableModels] and [GET /api/models]   *)
(* ================================================================== *)

Module Catalog.

(** The JSON bodies of [GET /api/models]. *)
Inductive listing : Type :=
| Listed (models : value) (apiVersion currentModel baseUrl : jsstring)
    (* { success: true, models, apiVersion, currentModel, baseUrl } *)
| NotListed (error : jsstring).
    (* { success: false, error } *)

Record answer : Type := { code : N; content : listing }.

Definition listFailure : jsstring := js "Failed to list available models".

Section Listing.

Variable exn_message : exn -> jsstring.

(** [process.env.GEMINI_BASE_URL], [GEMINI_API_VERSION] and
    [GEMINI_MODEL], each with its default. *)
Variable GEMINI_BASE_URL : jsstring.
Variable GEMINI_API_VERSION : jsstring.
Variable GEMINI_MODEL : jsstring.

(** lines 28-70: one GET request, no retry; [o] is what becomes of it. *)
Definition listAvailableModels (o : outcome) : settled value :=
  match o with
  | NetworkError message => Rejected (js "Request failed: " ++ message)
  | Response statusCode data =>
      let attempt :=
        let? response := match JSON_parse data with
                         | Some v => Normal v
                         | None => Throw (SyntaxError data)
                         end in
        if N.eqb statusCode 200 then Normal (Resolved response)
        else
          let? error := Get response (js "error") in
          let? message := GetOptional error (js "message") in
          let? text :=
            ToString (if truthy message then message
                      else VString (js "Failed to list models: "
                                    ++ decimalOfN statusCode)) in
          Normal (Rejected text) in
      match attempt with
      | Normal r => r
      | Throw e => Rejected (js "Failed to parse models list: " ++ exn_message e)
      end
  end.

(** lines 325-342: [app.get('/api/models')] *)
Definition listModels (o : outcome) : answer :=
  let failed (message : jsstring) :=
    {| code := 500;
       content := NotListed (if truthy (VString message) then message
                             else listFailure) |} in
  match listAvailableModels o with
  | Resolved models =>
      match Get models (js "models") with
      | Normal found =>
          {| code := 200;
             content := Listed (if truthy found then found else VArray [])
                               GEMINI_API_VERSION GEMINI_MODEL GEMINI_BASE_URL |}
      | Throw e => failed (exn_message e)
      end
  | Rejected message => failed message
  end.

End Listing.

End Catalog.

(* ================================================================== *)
(** * The page: the client script                                      *)
(* ================================================================== *)

Module Client.

(** line 18 *)
Definition MAX_CHARS : Z := 10000.

(** line 35: the flag the ['input'] listener gives the button *)
Definition buttonDisabled (value : jsstring) : bool :=
  (len value =? 0)%Z || (MAX_CHARS <? len value)%Z.

(** What becomes of the [fetch]: it rejects, or a response arrives, of
    which the script reads [ok] and the body, as text. *)
Inductive fetched : Type :=
| FetchFailed (message : jsstring)
| Replied (ok : bool) (body : jsstring).

(** What [displayResults] writes into the page. *)
Record rendering : Type := {
  sentimentText : jsstring;     (* sentimentValue.textContent *)
  sentimentClass : jsstring;    (* sentimentValue.className *)
  themesHTML : jsstring;        (* themesList.innerHTML *)
  toneText : jsstring;          (* toneValue.textContent *)
  summaryText : jsstring        (* summaryValue.textContent *)
}.

(** What the user ends up seeing. *)
Inductive shown : Type :=
| ErrorShown (message : jsstring)   (* showError(message) *)
| ResultShown (r : rendering).      (* displayResults went through *)

Definition pleaseEnter : jsstring := js "Please enter some text to analyze.".

Definition failedToAnalyze : jsstring := js "Failed to analyze text".

Definition invalidResponse : jsstring := js "Invalid response from server".

Definition noThemes : jsstring :=
  jsq "<span class='theme-tag'>No specific themes identified</span>".

Definition openTag : jsstring := jsq "<span class='theme-tag'>".

Definition closeTag : jsstring := js "</span>".

(** How the serialisation of a text node writes one code unit. *)
Definition escapeChar (c : N) : jsstring :=
  if N.eqb c 38 then js "&amp;"
  else if N.eqb c 160 then js "&nbsp;"
  else if N.eqb c 60 then js "&lt;"
  else if N.eqb c 62 then js "&gt;"
  else [c].

(** lines 171-175: [div.textContent = text; return div.innerHTML].
    [null] and [undefined] leave the element empty; any other value is
    converted to a string, which becomes one text node. *)
Definition escapeHtml (text : value) : completion jsstring :=
  match text with
  | VUndefined | VNull => Normal []
  | _ => let? s := ToString text in Normal (flat_map escapeChar s)
  end.

(** lines 124-125: [themes.map(theme => `<span ...>${...}</span>`)] *)
Fixpoint themeTags (themes : list value) : completion (list jsstring) :=
  match themes with
  | [] => Normal []
  | theme :: rest =>
      let? escaped := escapeHtml theme in
      let? tags := themeTags rest in
      Normal ((openTag ++ escaped ++ closeTag) :: tags)
  end.

Section Page.

(** The wording of the browser's exceptions. *)
Variable exn_message : exn -> jsstring.

(** [String.prototype.toLowerCase] *)
Variable toLowerCase : jsstring -> jsstring.

(** [MAX_CHARS.toLocaleString()], which depends on the locale. *)
Variable localeMax : jsstring.

(** What the [fetch] of [POST /api/analyze] with [{ text }] yields. *)
Variable fetch : jsstring -> fetched.

Definition tooLong : jsstring :=
  js "Text exceeds the maximum length of " ++ localeMax ++ js " characters.".

Definition genericError : jsstring :=
  js "An error occurred while analyzing the text. Please try again.".

(** lines 64-75: the text to post, or the error to show *)
Definition validate (value : jsstring) : jsstring + jsstring :=
  let text := trim value in
  if negb (truthy (VString text)) then inl pleaseEnter
  else if (MAX_CHARS <? len text)%Z then inl tooLong
  else inr text.

(** lines 116-140 *)
Definition displayResults (analysis : value) : completion rendering :=
  let? s := Get analysis (js "sentiment") in
  let? sentiment :=
    match (if truthy s then s else VString (js "neutral")) with
    | VString str => Normal (toLowerCase str)
    | _ => Throw (TypeError_notFunction
                    (js "(analysis.sentiment || 'neutral').toLowerCase"))
    end in
  let? themes := Get analysis (js "themes") in
  let? html :=
    if truthy themes && isArray themes
       && (0 <? Z.of_nat (List.length (elements themes)))%Z
    then let? tags := themeTags (elements themes) in Normal (List.concat tags)
    else Normal noThemes in
  let? t := Get analysis (js "tone") in
  let? tone := ToString (if truthy t then t else VString (js "Not specified")) in
  let? su := Get analysis (js "summary") in
  let? summary :=
    ToString (if truthy su then su else VString (js "No summary available")) in
  Normal {| sentimentText := sentiment;
            sentimentClass := js "sentiment-value " ++ sentiment;
            themesHTML := html;
            toneText := tone;
            summaryText := summary |}.

(** lines 85-104: the [try] block; on the left, the message of what
    it throws. *)
Definition receive (f : fetched) : jsstring + rendering :=
  match f with
  | FetchFailed message => inl message
  | Replied ok body =>
      match JSON_parse body with
      | None => inl (exn_message (SyntaxError body))
      | Some data =>
          let thrown (c : completion (jsstring + rendering)) :=
            match c with
            | Normal r => r
            | Throw e => inl (exn_message e)
            end in
          if negb ok then
            thrown (let? error := Get data (js "error") in
                    let? message :=
                      ToString (if truthy error then error
                                else VString failedToAnalyze) in
                    Normal (inl message))
          else
            thrown (let? success := Get data (js "success") in
                    let? analysis := andAlso success (Get data (js "analysis")) in
                    if truthy analysis then
                      let? r := displayResults analysis in Normal (inr r)
                    else Normal (inl invalidResponse))
      end
  end.

(** lines 63-113 *)
Definition analyzeText (value : jsstring) : shown :=
  match validate value with
  | inl message => ErrorShown message
  | inr text =>
      match receive (fetch text) with
      | inr r => ResultShown r
      | inl message =>
          ErrorShown (if truthy (VString message) then message else genericError)
      end
  end.

End Page.

End Client.

(* ================================================================== *)
(** * Vocabulary of the properties                                     *)
(* ================================================================== *)

(** The world after one more request. *)
Definition requested (w : world) (modelName userText : jsstring) : world :=
  {| sent := S (sent w); trace := trace w ++ [Request modelName userText] |}.

(** [response.candidates[0].content.parts[0].text], read without any
    test in between: the first candidate's text of the provider's reply. *)
Definition candidateText (response : value) : completion value :=
  let? candidates := Get response (js "candidates") in
  let? candidate := Get candidates (js "0") in
  let? content := Get candidate (js "content") in
  let? parts := Get content (js "parts") in
  let? part := Get parts (js "0") in
  Get part (js "text").

(** The reply carries a first candidate with a non-empty text. *)
Definition usable (response : value) : Prop :=
  exists text, candidateText response = Normal (VString text) /\ text <> [].

Definition present (v : value) : bool :=
  match v with
  | VUndefined => false
  | _ => true
  end.

(** No field is missing, and every field holds something: [sentiment],
    [tone] and [summary] are truthy, [themes] is an array. *)
Definition populated (a : AnalysisResult) : Prop :=
  (present (sentiment a) = true /\ present (themes a) = true /\
   present (tone a) = true /\ present (summary a) = true) /\
  (truthy (sentiment a) = true /\ isArray (themes a) = true /\
   truthy (tone a) = true /\ truthy (summary a) = true).

(** The events of a call chain whose requests were answered by 429 and
    backed off by [delays], up to its last request. *)
Fixpoint backoffs (modelName userText : jsstring) (delays : list number)
  : list event :=
  match delays with
  | [] => [Request modelName userText]
  | d :: ds => Request modelName userText :: Delay d :: backoffs modelName userText ds
  end.

(** The models that [tried] names were called in turn, one chain each,
    from world [w] to world [w']: all but the last were rejected, and
    the result is that of the chain that resolved, if one did. *)
Inductive scanned (call : jsstring -> M (settled AnalysisResult))
  : world -> list jsstring -> option AnalysisResult -> world -> Prop :=
| scanned_done w : scanned call w [] None w
| scanned_hit w modelName a w' :
    call modelName w = (Resolved a, w') ->
    scanned call w [modelName] (Some a) w'
| scanned_miss w modelName message w' tried found w'' :
    call modelName w = (Rejected message, w') ->
    scanned call w' tried found w'' ->
    scanned call w (modelName :: tried) found w''.

(** The models of a list that are not the configured one. *)
Definition others (configured : jsstring) (models : list jsstring) : list jsstring :=
  filter (fun m => negb (streq m configured)) models.

(** [l] is an initial segment of [l']. *)
Definition prefix (l l' : list jsstring) : Prop := exists rest, l' = l ++ rest.

(** ** Sample surroundings, used to exercise the statements *)

(** A wording of the engine's exceptions, after V8's; the text of a
    SyntaxError, which depends on where the parser stops, is left
    schematic.  The properties hold for every wording. *)
Definition engine_message (e : exn) : jsstring :=
  match e with
  | SyntaxError _ => js "Unexpected token in JSON"
  | TypeError_read base key =>
      js "Cannot read properties of "
      ++ (match base with VNull => js "null" | _ => js "undefined" end)
      ++ js " (reading '" ++ key ++ js "')"
  | TypeError_notFunction callee => callee ++ js " is not a function"
  | TypeError_toPrimitive => js "Cannot convert object to primitive value"
  end.

Definition gemma : jsstring := js "gemma-3-27b-it".

(** A provider that answers the requests with [l] in turn, and with a
    transport failure afterwards. *)
Definition replies (l : list outcome) : nat -> outcome :=
  fun n => nth n l (NetworkError (js "socket hang up")).

Definition hexDigit (n : N) : N := if N.ltb n 10 then (48 + n)%N else (87 + n)%N.

(** A JSON string literal that denotes [s]. *)
Definition quote (s : jsstring) : jsstring :=
  [34%N]
  ++ flat_map
       (fun c =>
          if N.eqb c 34 || N.eqb c 92 then [92%N; c]
          else if N.eqb c 10 then js "\n"
          else if N.ltb c 32 then js "\u00" ++ [hexDigit (c / 16); hexDigit (c mod 16)]
          else [c]) s
  ++ [34%N].

(** The body of a 200 reply whose first candidate says [text]. *)
Definition reply (text : jsstring) : jsstring :=
  jsq "{'candidates':[{'content':{'parts':[{'text':" ++ quote text
  ++ jsq "}],'role':'model'},'finishReason':'STOP'}]}".

(** The analysis of the specification's scenario. *)
Definition lovesJob : jsstring :=
  jsq "{'sentiment':'positive','themes':['work'],'tone':'upbeat','summary':'Expresses enjoyment of work.'}".

(** A 429 body that names a retry delay. *)
Definition quota (retryDelay : jsstring) : jsstring :=
  jsq "{'error':{'code':429,'message':'Resource has been exhausted','status':'RESOURCE_EXHAUSTED','details':[{'@type':'type.googleapis.com/google.rpc.RetryInfo','retryDelay':"
  ++ quote retryDelay ++ jsq "}]}}".

Definition notFound : jsstring :=
  jsq "{'error':{'code':404,'message':'models/gemma-3-27b-it is not found for API version v1beta','status':'NOT_FOUND'}}".

(** A text inside a markdown fence, as models often send it. *)
Definition fenced (text : jsstring) : jsstring :=
  js "```json" ++ [LF] ++ text ++ [LF] ++ js "```".

(** An analysis whose [sentiment] is the empty string. *)
Definition blankSentiment : jsstring :=
  jsq "{'sentiment':'','themes':[],'tone':'calm','summary':'Nothing stands out.'}".

(** An analysis with [themes] that is no array, and nothing else. *)
Definition themesOnly : jsstring := jsq "{'themes':'none'}".

Definition start : world := {| sent := 0; trace := [] |}.

Definition textBody (text : jsstring) : value := VObject [(js "text", VString text)].

(** ** Further vocabulary *)

(** [response.error?.key] *)
Definition errorField (response : value) (key : jsstring) : completion value :=
  let? error := Get response (js "error") in
  GetOptional error key.

(** A detail without a truthy [retryDelay]. *)
Definition silent (detail : value) : Prop :=
  exists v, Get detail (js "retryDelay") = Normal v /\ truthy v = false.

(** A text without a backtick. *)
Definition plain (s : jsstring) : Prop := Forall (fun c => c <> 96%N) s.

(** A JSON value that is neither [null] nor an object. *)
Definition scalarOrArray (v : value) : bool :=
  match v with
  | VBool _ | VNumber _ | VString _ | VArray _ => true
  | VUndefined | VNull | VObject _ => false
  end.

(** An event of the handler: a delay, or a request that carries [text]
    and asks for one of [models]. *)
Definition carries (text : jsstring) (models : list jsstring) (e : event) : Prop :=
  match e with
  | Request modelName userText => userText = text /\ In modelName models
  | Delay _ => True
  end.

(** How often the code unit [c] occurs in [s]. *)
Definition occurrences (c : N) (s : jsstring) : nat := count_occ N.eq_dec s c.

(** A 429 body whose first detail has no [retryDelay] and whose second
    names one. *)
Definition quotaSecond : jsstring :=
  jsq "{'error':{'code':429,'details':[{'@type':'type.googleapis.com/google.rpc.Help'},{'retryDelay':'34.07s'}]}}".

(** A 429 body whose details start with [null]. *)
Definition quotaNull : jsstring :=
  jsq "{'error':{'code':429,'details':[null,{'retryDelay':'5s'}]}}".

(** An error body that has a code and no message. *)
Definition codeOnly : jsstring := jsq "{'error':{'code':503}}".


(** A reply of the server to the page, with markup in a theme. *)
Definition served : jsstring :=
  jsq "{'success':true,'analysis':{'sentiment':'Positive','themes':['<b>work</b>','R&D'],'tone':'upbeat','summary':'Expresses enjoyment of work.'}}".

(** Lower case for the letters A to Z; enough for the page's samples. *)
Definition asciiLower (s : jsstring) : jsstring :=
  map (fun c => if N.leb 65 c && N.leb c 90 then (c + 32)%N else c) s.

(* ================================================================== *)
(** * Properties                                                       *)
(* ================================================================== *)

(** ** The runtime *)

Lemma streq_refl (s : jsstring) : streq s s = true.
Proof.
  induction s as [|c s IH]; simpl; [reflexivity|].
  now rewrite N.eqb_refl, IH.
Qed.

Lemma streq_eq (s t : jsstring) : streq s t = true <-> s = t.
Proof.
  split; [|intros ->; apply streq_refl].
  revert t; induction s as [|c s IH]; intros [|d t]; simpl; try discriminate; auto.
  intros H; apply andb_prop in H as [Hc Hs].
  apply N.eqb_eq in Hc; subst d. f_equal; auto.
Qed.

Lemma truthy_string (s : jsstring) : truthy (VString s) = true <-> s <> [].
Proof.
  simpl; destruct s; simpl; split; intros H; congruence.
Qed.

Lemma truthy_present (v : value) : truthy v = true -> present v = true.
Proof. destruct v; simpl; congruence. Qed.

Lemma isArray_present (v : value) : isArray v = true -> present v = true.
Proof. destruct v; simpl; congruence. Qed.

(** A truthy value has properties to read. *)
Lemma Get_truthy (v : value) (k : jsstring) :
  truthy v = true -> exists x, Get v k = Normal x.
Proof.
  destruct v; simpl; try discriminate; intros _; eauto.
  - destruct (streq k (js "length")); eauto.
    destruct (arrayIndex k); eauto.
  - destruct (streq k (js "length")); eauto.
    destruct (arrayIndex k); eauto.
Qed.

(** A falsy value that can be read at all has none of the properties the
    server asks for. *)
Lemma Get_falsy (v : value) (k : jsstring) (x : value) :
  truthy v = false -> streq k (js "length") = false ->
  Get v k = Normal x -> x = VUndefined.
Proof.
  destruct v; simpl; try discriminate; try congruence.
  intros Hs Hk. rewrite Hk.
  destruct s; [|discriminate].
  destruct (arrayIndex k) as [i|]; [|congruence].
  destruct i; simpl; congruence.
Qed.

Lemma firstn_nonempty (A : Type) (l : list A) (n : nat) :
  l <> [] -> firstn (S n) l <> [].
Proof. destruct l; simpl; congruence. Qed.

(** The runtime at work. *)
Example trim_removes_both_ends :
  trim ([9; 32; 160; 65279]%N ++ js "I love my job" ++ [13; 10; 8233]%N)
  = js "I love my job".
Proof. vm_compute. reflexivity. Qed.

Example stripFence_fenced : stripFence (fenced lovesJob) = lovesJob.
Proof. vm_compute. reflexivity. Qed.

Example stripFence_plain_fence :
  stripFence (js "```" ++ [LF] ++ themesOnly ++ [LF] ++ js "```") = themesOnly.
Proof. vm_compute. reflexivity. Qed.

Example Number_toString_samples :
  map Number_toString
      [429%float; (-0)%float; 2.5%float; Number_ofDecimal 1 (-1);
       Number_ofDecimal 1 21; Number_ofDecimal 123456789012345678901 0;
       Number_ofDecimal 1 (-7); Number_ofDecimal 5 (-324); nan; neg_infinity]
  = [js "429"; js "0"; js "2.5"; js "0.1"; js "1e+21";
     js "123456789012345680000"; js "1e-7"; js "5e-324"; js "NaN";
     js "-Infinity"].
Proof. vm_compute. reflexivity. Qed.

Example JSON_parse_samples :
  JSON_parse (jsq " {'a' : [1, -2.5e1, 'x\nA', null, true, {}], 'a' : false} ")
  = Some (VObject [(js "a", VBool false)])
  /\ JSON_parse (jsq "[1, [2, [3, {'k': ['\'']}]]]")
     = Some (VArray [VNumber 1%float; VArray [VNumber 2%float;
               VArray [VNumber 3%float;
                       VObject [(js "k", VArray [VString [34%N]])]]]])
  /\ map JSON_parse [jsq "[1,]"; jsq "{'a':1,}"; jsq "01"; jsq "1."; jsq "nul";
                     jsq "'a"; jsq "{a:1}"; jsq "1 2"; []]
     = repeat None 9.
Proof. repeat split; vm_compute; reflexivity. Qed.

Example parseInt10_samples :
  map parseInt10 [VString (js "30s"); VString (js "  -7.9"); VString (js "s30");
                  VNumber 34.5%float; VBool true; VArray [VString (js "12")];
                  VObject []; VObject [(js "toString", VNull)]]
  = [Normal 30%float; Normal (-7)%float; Normal nan; Normal 34%float;
     Normal nan; Normal 12%float; Normal nan; Throw TypeError_toPrimitive].
Proof. vm_compute. reflexivity. Qed.

Lemma bind_Normal (A B : Type) (c : completion A) (k : A -> completion B) (b : B) :
  bind c k = Normal b -> exists a, c = Normal a /\ k a = Normal b.
Proof. destruct c as [a|e]; simpl; [eauto|discriminate]. Qed.

Ltac invert_bind H :=
  let a := fresh "v" in
  let E := fresh "E" in
  apply bind_Normal in H as (a & E & H).

(** Reading through a value finds something only if the value is truthy. *)
Lemma Get_through (v x y : value) (k k' : jsstring) :
  streq k (js "length") = false ->
  Get v k = Normal x -> Get x k' = Normal y -> truthy v = true.
Proof.
  intros Hk Hx Hy.
  destruct (truthy v) eqn:T; [reflexivity|].
  rewrite (Get_falsy v k T Hk Hx) in Hy. discriminate.
Qed.

(** ** The 200 path *)

(** A usable reply is parsed, never rejected. *)
Lemma readCandidate_usable (response : value) (text : jsstring) :
  candidateText response = Normal (VString text) -> text <> [] ->
  readCandidate response = Normal (Resolved (parseAnalysis text (stripFence text))).
Proof.
  unfold candidateText; intros H Htext.
  invert_bind H. rename v into candidates, E into Ecandidates.
  invert_bind H. rename v into candidate, E into Ecandidate.
  invert_bind H. rename v into content, E into Econtent.
  invert_bind H. rename v into parts, E into Eparts.
  invert_bind H. rename v into part, E into Epart.
  assert (truthy candidates = true) as Tcandidates
      by (eapply Get_through; [|exact Ecandidate|exact Econtent]; reflexivity).
  assert (truthy candidate = true) as Tcandidate
      by (eapply Get_through; [|exact Econtent|exact Eparts]; reflexivity).
  assert (truthy content = true) as Tcontent
      by (eapply Get_through; [|exact Eparts|exact Epart]; reflexivity).
  assert (truthy parts = true) as Tparts
      by (eapply Get_through; [|exact Epart|exact H]; reflexivity).
  assert (truthy part = true) as Tpart.
  { destruct (truthy part) eqn:T; [reflexivity|].
    assert (VString text = VUndefined)
      by (eapply Get_falsy; [exact T| |exact H]; reflexivity).
    discriminate. }
  destruct (Get_truthy candidate (js "finishReason") Tcandidate) as [reason Ereason].
  unfold readCandidate, andAlso.
  rewrite Ecandidates; simpl bind.
  rewrite Tcandidates, Ecandidate; simpl bind.
  rewrite Tcandidate, Ereason; simpl bind.
  rewrite Econtent; simpl bind.
  rewrite Tcontent, Eparts; simpl bind.
  rewrite Tparts, Epart; simpl bind.
  rewrite Tpart, H; simpl bind.
  destruct text; [congruence|reflexivity].
Qed.

(** Conversely, only a usable reply is parsed. *)
Lemma readCandidate_resolved (response : value) (a : AnalysisResult) :
  readCandidate response = Normal (Resolved a) ->
  exists text, candidateText response = Normal (VString text) /\ text <> []
               /\ a = parseAnalysis text (stripFence text).
Proof.
  unfold readCandidate, andAlso, candidateText; intros H.
  invert_bind H. rename v into candidates, E into Ecandidates.
  invert_bind H. rename v into candidate, E into Ecandidate.
  destruct (truthy candidate) eqn:Tcandidate; [|discriminate].
  destruct (truthy candidates) eqn:Tcandidates;
    [|injection Ecandidate as ->; congruence].
  invert_bind H. clear E v.
  invert_bind H. rename v into content, E into Econtent.
  invert_bind H. rename v into parts, E into Eparts.
  invert_bind H. rename v into part, E into Epart.
  destruct (truthy part) eqn:Tpart; [|discriminate].
  destruct (truthy content) eqn:Tcontent;
    [|injection Eparts as ->;
      rewrite Tcontent in Epart; injection Epart as ->; congruence].
  destruct (truthy parts) eqn:Tparts; [|injection Epart as ->; congruence].
  invert_bind H. rename v into textResponse, E into Etext.
  destruct (truthy textResponse) eqn:Ttext; [|discriminate].
  destruct textResponse as [| | | |text| |]; try discriminate.
  exists text.
  rewrite Ecandidates; simpl bind. rewrite Ecandidate; simpl bind.
  rewrite Econtent; simpl bind. rewrite Eparts; simpl bind.
  rewrite Epart; simpl bind.
  split; [exact Etext|]. split; [now apply truthy_string|].
  simpl in H. congruence.
Qed.

Lemma populated_intro (s th t su : value) :
  truthy s = true -> isArray th = true -> truthy t = true -> truthy su = true ->
  populated {| sentiment := s; themes := th; tone := t; summary := su |}.
Proof.
  intros Hs Hth Ht Hsu. unfold populated; cbn [sentiment themes tone summary].
  repeat split; auto using truthy_present, isArray_present.
Qed.

Lemma truthy_or (v d : value) :
  truthy d = true -> truthy (if truthy v then v else d) = true.
Proof. intros Hd; destruct (truthy v) eqn:T; assumption. Qed.

(** Whatever the model wrote, the analysis made of a non-empty text has
    its four fields. *)
Lemma parseAnalysis_populated (text jsonText : jsstring) :
  text <> [] -> populated (parseAnalysis text jsonText).
Proof.
  intros Htext.
  assert (forall n, truthy (VString (substring0 text (S n))) = true) as Hsub
      by (intros n; apply truthy_string, firstn_nonempty, Htext).
  assert (populated (fallback text)) as Hfallback
      by (apply populated_intro; auto).
  unfold parseAnalysis.
  destruct (JSON_parse jsonText) as [analysis|]; [|exact Hfallback].
  cbn [bind].
  destruct (Get analysis (js "sentiment")) as [s|]; [|exact Hfallback].
  destruct (Get analysis (js "themes")) as [th|]; [|exact Hfallback].
  destruct (Get analysis (js "tone")) as [t|]; [|exact Hfallback].
  destruct (Get analysis (js "summary")) as [su|]; [|exact Hfallback].
  cbn [bind].
  apply populated_intro; auto using truthy_or.
  destruct (isArray th) eqn:T; [assumption|reflexivity].
Qed.

(** ** Other statuses *)

Lemma readError_rejects (statusCode : N) (response : value)
      (r : settled AnalysisResult) :
  readError statusCode response = Normal r -> exists message, r = Rejected message.
Proof.
  unfold readError; intros H.
  repeat invert_bind H. injection H as <-. eauto.
Qed.

(** ** The remote call executor *)

Section Executor.

Variable exn_message : exn -> jsstring.
Variable remote : nat -> outcome.

Local Abbreviation callGeminiAPI := (callGeminiAPI exn_message remote).
Local Abbreviation attempts := (attempts exn_message remote).
Local Abbreviation settle := (settle exn_message).

(** The recursive equation of the source: line 171 tests
    [res.statusCode === 429 && retryCount < maxRetries]. *)
Lemma callGeminiAPI_equation (userText modelName : jsstring)
      (retryCount maxRetries : nat) (w : world) :
  callGeminiAPI userText modelName retryCount maxRetries w =
  match remote (sent w) with
  | NetworkError message =>
      (Rejected (js "Request failed: " ++ message), requested w modelName userText)
  | Response statusCode data =>
      match JSON_parse data with
      | None =>
          (Rejected (js "Failed to parse API response: "
                     ++ exn_message (SyntaxError data)),
           requested w modelName userText)
      | Some response =>
          if N.eqb statusCode 429 && Nat.ltb retryCount maxRetries then
            callGeminiAPI userText modelName (S retryCount) maxRetries
              (snd (delay (extractRetryDelay response)
                          (requested w modelName userText)))
          else (settle statusCode response, requested w modelName userText)
      end
  end.
Proof.
  unfold callGeminiAPI.
  destruct (maxRetries - retryCount) as [|budget] eqn:E;
    simpl; unfold seq, send, ret, requested; simpl;
    destruct (remote (sent w)) as [statusCode data|message]; try reflexivity;
    destruct (JSON_parse data) as [response|]; try reflexivity.
  - assert (Nat.ltb retryCount maxRetries = false) as ->
        by (apply Nat.ltb_ge; lia).
    now rewrite andb_false_r.
  - assert (Nat.ltb retryCount maxRetries = true) as ->
        by (apply Nat.ltb_lt; lia).
    rewrite andb_true_r.
    destruct (N.eqb statusCode 429); [|reflexivity].
    replace (maxRetries - S retryCount) with budget by lia.
    reflexivity.
Qed.

Lemma settle_200 (response : value) :
  settle 200 response =
  match readCandidate response with
  | Normal r => r
  | Throw e => Rejected (js "Failed to parse API response: " ++ exn_message e)
  end.
Proof. reflexivity. Qed.

Lemma settle_other (statusCode : N) (response : value) :
  statusCode <> 200%N -> exists message, settle statusCode response = Rejected message.
Proof.
  intros Hstatus. unfold settle.
  apply N.eqb_neq in Hstatus. rewrite Hstatus. cbn [negb].
  destruct (readError statusCode response) as [r|e] eqn:E; [|eauto].
  apply readError_rejects in E as [message ->]. eauto.
Qed.

Lemma settle_resolved (statusCode : N) (response : value) (a : AnalysisResult) :
  settle statusCode response = Resolved a ->
  statusCode = 200%N /\ readCandidate response = Normal (Resolved a).
Proof.
  intros H.
  destruct (N.eq_dec statusCode 200) as [->|Hstatus].
  - split; [reflexivity|]. rewrite settle_200 in H.
    destruct (readCandidate response); [congruence|discriminate].
  - destruct (settle_other response Hstatus) as [message E]. congruence.
Qed.

(** The messages of lines 202, 234 and 237. *)
Lemma readCandidate_rejected (response : value) (message : jsstring) :
  readCandidate response = Normal (Rejected message) ->
  In message [js "Empty response from Gemini API";
              js "Invalid response format: missing content.parts";
              js "Invalid response format: missing candidates"].
Proof.
  unfold readCandidate; intros H.
  invert_bind H. invert_bind H.
  destruct (truthy v0);
    [|injection H as <-; right; right; left; reflexivity].
  invert_bind H. invert_bind H. invert_bind H. invert_bind H.
  destruct (truthy v4); [|injection H as <-; right; left; reflexivity].
  invert_bind H.
  destruct (truthy v5); cbn [negb] in H; [|injection H as <-; left; reflexivity].
  destruct v5; discriminate.
Qed.

Lemma attempts_equation (budget : nat) (userText modelName : jsstring)
      (retryCount : nat) (w : world) :
  attempts budget userText modelName retryCount w =
  match remote (sent w) with
  | NetworkError message =>
      (Rejected (js "Request failed: " ++ message), requested w modelName userText)
  | Response statusCode data =>
      match JSON_parse data with
      | None =>
          (Rejected (js "Failed to parse API response: "
                     ++ exn_message (SyntaxError data)),
           requested w modelName userText)
      | Some response =>
          match budget with
          | S budget' =>
              if N.eqb statusCode 429 then
                attempts budget' userText modelName (S retryCount)
                  (snd (delay (extractRetryDelay response)
                              (requested w modelName userText)))
              else (settle statusCode response, requested w modelName userText)
          | O => (settle statusCode response, requested w modelName userText)
          end
      end
  end.
Proof.
  destruct budget; simpl; unfold seq, send, ret, requested; simpl;
    destruct (remote (sent w)) as [statusCode data|message]; try reflexivity;
    destruct (JSON_parse data) as [response|]; try reflexivity.
  destruct (N.eqb statusCode 429); reflexivity.
Qed.

(** C1. Every analysis [callGeminiAPI] resolves with, straight away or
    after any number of retries, parsed from the model's JSON or made
    up by the fallback, has its four fields [sentiment], [themes],
    [tone] and [summary]: none is missing, [themes] is an array and the
    other three are truthy. *)
Theorem callGeminiAPI_populated (userText modelName : jsstring)
        (retryCount maxRetries : nat) (w w' : world) (a : AnalysisResult) :
  callGeminiAPI userText modelName retryCount maxRetries w = (Resolved a, w') ->
  populated a.
Proof.
  unfold callGeminiAPI.
  generalize (maxRetries - retryCount) as budget.
  intros budget; revert retryCount w.
  assert (forall statusCode response,
             settle statusCode response = Resolved a -> populated a) as Hsettle.
  { intros statusCode response H.
    apply settle_resolved in H as [_ H].
    apply readCandidate_resolved in H as (text & _ & Htext & ->).
    now apply parseAnalysis_populated. }
  induction budget as [|budget IH]; intros retryCount w;
    rewrite attempts_equation;
    destruct (remote (sent w)) as [statusCode data|message]; try discriminate;
    destruct (JSON_parse data) as [response|]; try discriminate.
  - intros H; injection H as H _. eauto.
  - destruct (N.eqb statusCode 429).
    + apply IH.
    + intros H; injection H as H _. eauto.
Qed.

(** C2. A 200 reply whose candidate text is a non-empty string that,
    once trimmed and unfenced, is not JSON makes [callGeminiAPI]
    resolve, after this one request, with the fallback: sentiment
    "neutral", no themes, tone "mixed", and the first 500 code units of
    the raw text as summary. *)
Theorem unparseable_text_falls_back (userText modelName : jsstring)
        (retryCount maxRetries : nat) (w : world)
        (data : jsstring) (response : value) (text : jsstring) :
  remote (sent w) = Response 200 data ->
  JSON_parse data = Some response ->
  candidateText response = Normal (VString text) ->
  text <> [] ->
  JSON_parse (stripFence text) = None ->
  callGeminiAPI userText modelName retryCount maxRetries w =
  (Resolved {| sentiment := VString (js "neutral");
               themes := VArray [];
               tone := VString (js "mixed");
               summary := VString (firstn 500 text) |},
   requested w modelName userText).
Proof.
  intros Hremote Hdata Hcandidate Htext Hjson.
  rewrite callGeminiAPI_equation, Hremote, Hdata.
  cbn [N.eqb Pos.eqb andb].
  rewrite settle_200, (readCandidate_usable _ Hcandidate Htext).
  unfold parseAnalysis. rewrite Hjson. reflexivity.
Qed.

(** What [parseAnalysis] makes of a JSON object. *)
Lemma parseAnalysis_object (text jsonText : jsstring)
      (props : list (jsstring * value)) :
  JSON_parse jsonText = Some (VObject props) ->
  parseAnalysis text jsonText =
  let s := orUndefined (lookup (js "sentiment") props) in
  let th := orUndefined (lookup (js "themes") props) in
  let t := orUndefined (lookup (js "tone") props) in
  let su := orUndefined (lookup (js "summary") props) in
  {| sentiment := if truthy s then s else VString (js "neutral");
     themes := if isArray th then th else VArray [];
     tone := if truthy t then t else VString (js "Not specified");
     summary := if truthy su then su else VString (substring0 text 200) |}.
Proof. intros H. unfold parseAnalysis. rewrite H. reflexivity. Qed.

(** C3. A 200 reply whose candidate text parses as a JSON object makes
    [callGeminiAPI] resolve with an analysis in which a missing
    [sentiment] is "neutral", [themes] that is missing or not an array
    is the empty array, a missing [tone] is "Not specified" and a
    missing [summary] is the first 200 code units of the raw text. *)
Theorem missing_fields_defaulted (userText modelName : jsstring)
        (retryCount maxRetries : nat) (w : world)
        (data : jsstring) (response : value) (text : jsstring)
        (props : list (jsstring * value)) :
  remote (sent w) = Response 200 data ->
  JSON_parse data = Some response ->
  candidateText response = Normal (VString text) ->
  text <> [] ->
  JSON_parse (stripFence text) = Some (VObject props) ->
  exists a,
    callGeminiAPI userText modelName retryCount maxRetries w =
    (Resolved a, requested w modelName userText)
    /\ (lookup (js "sentiment") props = None ->
        sentiment a = VString (js "neutral"))
    /\ ((forall v, lookup (js "themes") props = Some v -> isArray v = false) ->
        themes a = VArray [])
    /\ (lookup (js "tone") props = None ->
        tone a = VString (js "Not specified"))
    /\ (lookup (js "summary") props = None ->
        summary a = VString (firstn 200 text)).
Proof.
  intros Hremote Hdata Hcandidate Htext Hjson.
  eexists. split.
  - rewrite callGeminiAPI_equation, Hremote, Hdata.
    cbn [N.eqb Pos.eqb andb].
    rewrite settle_200, (readCandidate_usable _ Hcandidate Htext).
    rewrite (parseAnalysis_object _ _ Hjson). reflexivity.
  - cbn [sentiment themes tone summary].
    repeat split.
    + intros ->. reflexivity.
    + intros Hthemes.
      destruct (lookup (js "themes") props) as [v|] eqn:E; [|reflexivity].
      cbn [orUndefined]. now rewrite (Hthemes v eq_refl).
    + intros ->. reflexivity.
    + intros ->. reflexivity.
Qed.

(** C4, as the code has it. A 200 reply whose candidate text parses as
    a JSON object with all four fields, [sentiment], [tone] and
    [summary] truthy and [themes] an array, makes [callGeminiAPI]
    resolve with exactly these four values. *)
Theorem truthy_fields_kept (userText modelName : jsstring)
        (retryCount maxRetries : nat) (w : world)
        (data : jsstring) (response : value) (text : jsstring)
        (props : list (jsstring * value)) (s th t su : value) :
  remote (sent w) = Response 200 data ->
  JSON_parse data = Some response ->
  candidateText response = Normal (VString text) ->
  text <> [] ->
  JSON_parse (stripFence text) = Some (VObject props) ->
  lookup (js "sentiment") props = Some s -> truthy s = true ->
  lookup (js "themes") props = Some th -> isArray th = true ->
  lookup (js "tone") props = Some t -> truthy t = true ->
  lookup (js "summary") props = Some su -> truthy su = true ->
  callGeminiAPI userText modelName retryCount maxRetries w =
  (Resolved {| sentiment := s; themes := th; tone := t; summary := su |},
   requested w modelName userText).
Proof.
  intros Hremote Hdata Hcandidate Htext Hjson Hs Ts Hth Tth Ht Tt Hsu Tsu.
  rewrite callGeminiAPI_equation, Hremote, Hdata.
  cbn [N.eqb Pos.eqb andb].
  rewrite settle_200, (readCandidate_usable _ Hcandidate Htext).
  rewrite (parseAnalysis_object _ _ Hjson), Hs, Hth, Ht, Hsu.
  cbn [orUndefined]. rewrite Ts, Tth, Tt, Tsu. reflexivity.
Qed.

(** C7. When [maxRetries - retryCount] requests in a row have been
    answered by 429 (with JSON bodies) and backed off, and the next
    request is answered by 429 too, which is then a 429 arriving with
    [retryCount >= maxRetries], [callGeminiAPI] rejects, with what lines
    182-185 make of the last body (or with the message of line 242 if
    that body is not JSON); that request was the last one of the chain,
    and no delay follows it. *)
Theorem rate_limit_exhausted (userText modelName : jsstring)
        (maxRetries : nat) (responses : list value) (last : jsstring)
        (retryCount : nat) (w : world) :
  List.length responses = maxRetries - retryCount ->
  (forall i response,
      nth_error responses i = Some response ->
      exists data, remote (sent w + i) = Response 429 data
                   /\ JSON_parse data = Some response) ->
  remote (sent w + (maxRetries - retryCount)) = Response 429 last ->
  exists message,
    callGeminiAPI userText modelName retryCount maxRetries w =
    (Rejected message,
     {| sent := sent w + (maxRetries - retryCount) + 1;
        trace := trace w
                 ++ backoffs modelName userText (map extractRetryDelay responses) |})
    /\ Rejected message =
       match JSON_parse last with
       | Some response => settle 429 response
       | None => Rejected (js "Failed to parse API response: "
                           ++ exn_message (SyntaxError last))
       end.
Proof.
  revert retryCount w.
  induction responses as [|response responses IH];
    intros retryCount w Hlength Hretried Hlast; simpl in Hlength.
  - rewrite <- Hlength, Nat.add_0_r in Hlast.
    rewrite callGeminiAPI_equation, Hlast.
    assert (Nat.ltb retryCount maxRetries = false) as Hbudget
        by (apply Nat.ltb_ge; lia).
    rewrite Hbudget, andb_false_r, <- Hlength.
    replace (sent w + 0 + 1) with (S (sent w)) by lia.
    destruct (JSON_parse last) as [response|]; [|eauto].
    destruct (@settle_other 429 response) as [message E]; [discriminate|].
    rewrite E. eauto.
  - destruct (Hretried 0 response eq_refl) as (data & Hremote & Hdata).
    rewrite Nat.add_0_r in Hremote.
    rewrite callGeminiAPI_equation, Hremote, Hdata.
    assert (Nat.ltb retryCount maxRetries = true) as Hbudget
        by (apply Nat.ltb_lt; lia).
    rewrite Hbudget. cbn [N.eqb Pos.eqb andb].
    destruct (IH (S retryCount)
                 (snd (delay (extractRetryDelay response)
                             (requested w modelName userText))))
      as [message [E Hmessage]].
    + lia.
    + intros i r Hr. cbn [delay snd sent requested].
      destruct (Hretried (S i) r Hr) as (d & Hd & Pd).
      exists d. split; [|exact Pd]. rewrite <- Hd. f_equal. lia.
    + cbn [delay snd sent requested]. rewrite <- Hlast. f_equal. lia.
    + exists message. split; [|exact Hmessage].
      rewrite E. cbn [delay snd sent trace requested map backoffs].
      f_equal. f_equal; [lia|].
      rewrite <- !app_assoc. reflexivity.
Qed.

(** C9. A 200 reply that gives no usable text (no first candidate, no
    first part, a text that is missing, empty or not a string) makes
    [callGeminiAPI] reject after this one request: with one of the three
    messages of lines 202, 234 and 237, or, when reading the reply
    throws, with the message of line 242. *)
Theorem unusable_reply_rejected (userText modelName : jsstring)
        (retryCount maxRetries : nat) (w : world)
        (data : jsstring) (response : value) :
  remote (sent w) = Response 200 data ->
  JSON_parse data = Some response ->
  ~ usable response ->
  exists message,
    callGeminiAPI userText modelName retryCount maxRetries w =
    (Rejected message, requested w modelName userText)
    /\ (In message [js "Empty response from Gemini API";
                    js "Invalid response format: missing content.parts";
                    js "Invalid response format: missing candidates"]
        \/ exists e, message = js "Failed to parse API response: " ++ exn_message e).
Proof.
  intros Hremote Hdata Hunusable.
  rewrite callGeminiAPI_equation, Hremote, Hdata.
  cbn [N.eqb Pos.eqb andb]. rewrite settle_200.
  destruct (readCandidate response) as [[a|message]|e] eqn:E.
  - exfalso. apply Hunusable.
    apply readCandidate_resolved in E as (text & Hcandidate & Htext & _).
    exists text. auto.
  - exists message. split; [reflexivity|]. left.
    exact (readCandidate_rejected _ E).
  - eexists. split; [reflexivity|]. right. eauto.
Qed.

(** C10. A response of any status whose body is not JSON makes
    [callGeminiAPI] reject at once with the message of line 242, this
    request being the only event; and a chain sends a second request
    only after a 429, retries left, whose body is JSON. *)
Theorem unparseable_body_rejected (userText modelName : jsstring)
        (retryCount maxRetries : nat) (w : world)
        (statusCode : N) (data : jsstring) :
  remote (sent w) = Response statusCode data ->
  (JSON_parse data = None ->
   callGeminiAPI userText modelName retryCount maxRetries w =
   (Rejected (js "Failed to parse API response: "
              ++ exn_message (SyntaxError data)),
    requested w modelName userText))
  /\ (snd (callGeminiAPI userText modelName retryCount maxRetries w)
      <> requested w modelName userText ->
      statusCode = 429%N /\ retryCount < maxRetries
      /\ exists response, JSON_parse data = Some response).
Proof.
  intros Hremote. rewrite callGeminiAPI_equation, Hremote. split.
  - intros ->. reflexivity.
  - destruct (JSON_parse data) as [response|]; [|intros H; now elim H].
    destruct (N.eqb statusCode 429) eqn:Estatus;
      [|intros H; now elim H].
    destruct (Nat.ltb retryCount maxRetries) eqn:Ebudget;
      [|intros H; now elim H].
    intros _. apply N.eqb_eq in Estatus. apply Nat.ltb_lt in Ebudget.
    eauto.
Qed.

End Executor.

(** ** Backing off *)

Section Backoff.

Variable exn_message : exn -> jsstring.
Variable remote : nat -> outcome.

Local Abbreviation callGeminiAPI := (callGeminiAPI exn_message remote).

(** A 429 with a JSON body and retries left: one delay of
    [extractRetryDelay response] seconds, then the same call with
    [retryCount + 1]. *)
Lemma retry_backs_off_once (userText modelName : jsstring)
      (retryCount maxRetries : nat) (w : world)
      (data : jsstring) (response : value) :
  remote (sent w) = Response 429 data ->
  JSON_parse data = Some response ->
  retryCount < maxRetries ->
  callGeminiAPI userText modelName retryCount maxRetries w =
  callGeminiAPI userText modelName (S retryCount) maxRetries
    {| sent := S (sent w);
       trace := trace w ++ [Request modelName userText;
                            Delay (extractRetryDelay response)] |}.
Proof.
  intros Hremote Hdata Hbudget.
  rewrite callGeminiAPI_equation, Hremote, Hdata.
  apply Nat.ltb_lt in Hbudget. rewrite Hbudget.
  cbn [N.eqb Pos.eqb andb delay snd requested sent trace].
  rewrite <- app_assoc. reflexivity.
Qed.

(** Every chain begins with its request, and only adds to the log. *)
Lemma callGeminiAPI_requests (userText modelName : jsstring)
      (retryCount maxRetries : nat) (w : world) :
  exists later,
    trace (snd (callGeminiAPI userText modelName retryCount maxRetries w)) =
    trace w ++ Request modelName userText :: later.
Proof.
  unfold Server.callGeminiAPI.
  generalize (maxRetries - retryCount) as budget.
  intros budget; revert retryCount w.
  induction budget as [|budget IH]; intros retryCount w;
    rewrite attempts_equation;
    destruct (remote (sent w)) as [statusCode data|message];
    try (exists []; reflexivity);
    destruct (JSON_parse data) as [response|];
    try (exists []; reflexivity).
  destruct (N.eqb statusCode 429); [|exists []; reflexivity].
  destruct (IH (S retryCount)
               (snd (delay (extractRetryDelay response)
                           (requested w modelName userText))))
    as [later E].
  rewrite E. cbn [delay snd trace requested].
  rewrite <- !app_assoc. cbn [app]. eauto.
Qed.

(** A chain sends at least one request and at most one more than
    there are retries left. *)
Lemma callGeminiAPI_bounded (userText modelName : jsstring)
      (retryCount maxRetries : nat) (w : world) :
  sent w < sent (snd (callGeminiAPI userText modelName retryCount maxRetries w))
  <= sent w + (maxRetries - retryCount) + 1.
Proof.
  unfold Server.callGeminiAPI.
  generalize (maxRetries - retryCount) as budget.
  intros budget; revert retryCount w.
  induction budget as [|budget IH]; intros retryCount w;
    rewrite attempts_equation;
    destruct (remote (sent w)) as [statusCode data|message];
    try (cbn [snd requested sent]; lia);
    destruct (JSON_parse data) as [response|];
    try (cbn [snd requested sent]; lia).
  destruct (N.eqb statusCode 429); [|cbn [snd requested sent]; lia].
  specialize (IH (S retryCount)
                 (snd (delay (extractRetryDelay response)
                             (requested w modelName userText)))).
  cbn [delay snd requested sent] in IH |- *. lia.
Qed.

(** Without details, without an array of details, or without a truthy
    [retryDelay] in any of them, the delay is 30 seconds. *)
Lemma extractRetryDelay_default (errorResponse error : value) :
  Get errorResponse (js "error") = Normal error ->
  (forall details ds,
      GetOptional error (js "details") = Normal details ->
      details = VArray ds ->
      Forall (fun detail => exists v, Get detail (js "retryDelay") = Normal v
                                      /\ truthy v = false) ds) ->
  extractRetryDelay errorResponse = 30%float.
Proof.
  intros Herror Hdetails. unfold extractRetryDelay.
  rewrite Herror. cbn [bind].
  destruct (GetOptional error (js "details")) as [details|] eqn:E;
    [|reflexivity].
  cbn [bind].
  destruct details as [| | | | |ds|]; try reflexivity;
    try (cbn [truthy isArray andb]; now rewrite andb_false_r).
  specialize (Hdetails _ ds eq_refl eq_refl). clear E.
  cbn [truthy isArray andb elements].
  induction Hdetails as [|detail ds (v & Hv & Tv) _ IH]; [reflexivity|].
  cbn [firstRetryDelay]. rewrite Hv. cbn [bind]. rewrite Tv. exact IH.
Qed.

End Backoff.

(** ** The endpoint and the fallback over models *)

Section Coordinator.

Variable exn_message : exn -> jsstring.
Variable GEMINI_MODEL : jsstring.
Variable remote : nat -> outcome.

Local Abbreviation callGeminiAPI := (callGeminiAPI exn_message remote).
Local Abbreviation tryModels := (tryModels exn_message GEMINI_MODEL remote).
Local Abbreviation analyze := (analyze exn_message GEMINI_MODEL remote).

Lemma others_cons (m : jsstring) (models : list jsstring) :
  others GEMINI_MODEL (m :: models) =
  if streq m GEMINI_MODEL then others GEMINI_MODEL models else m :: others GEMINI_MODEL models.
Proof.
  unfold others. cbn [filter].
  destruct (streq m GEMINI_MODEL); reflexivity.
Qed.

Lemma trim_nonempty (s : jsstring) : trim s <> [] -> s <> [].
Proof. intros H ->. now apply H. Qed.

(** What the handler does once the text is found valid. *)
Lemma analyze_valid (reqBody : value) (s : jsstring) (w : world) :
  Get reqBody (js "text") = Normal (VString s) ->
  trim s <> [] -> (len s <= 10000)%Z ->
  analyze reqBody w =
  let '(r, w1) := callGeminiAPI (trim s) GEMINI_MODEL 0 3 w in
  match r with
  | Resolved analysis => (ok analysis, w1)
  | Rejected message =>
      if modelNotFound message then
        let '(found, w2) := tryModels (trim s) alternativeModels w1 in
        match found with
        | Some analysis => (ok analysis, w2)
        | None => (serverError allModelsFailed, w2)
        end
      else (serverError message, w1)
  end.
Proof.
  intros Htext Htrim Hlength. unfold Server.analyze. rewrite Htext.
  cbv beta iota.
  assert (truthy (VString s) = true) as ->
      by (apply truthy_string, trim_nonempty, Htrim).
  assert ((len (trim s) =? 0)%Z = false) as ->
      by (apply Z.eqb_neq; unfold len; destruct (trim s); [congruence|discriminate]).
  assert ((10000 <? len s)%Z = false) as ->
      by (apply Z.ltb_ge; lia).
  cbn [negb orb]. unfold seq.
  destruct (callGeminiAPI (trim s) GEMINI_MODEL 0 3 w) as [[analysis|message] w1];
    [reflexivity|].
  destruct (modelNotFound message); [|reflexivity].
  destruct (tryModels (trim s) alternativeModels w1) as [[analysis|] w2];
    reflexivity.
Qed.

(** The loop over the models is a scan: the models other than the
    configured one are called in the order of the list, up to the first
    that resolves. *)
Lemma tryModels_scanned (text : jsstring) (models : list jsstring) (w : world) :
  exists tried found w',
    tryModels text models w = (found, w')
    /\ scanned (fun m => callGeminiAPI text m 0 3) w tried found w'
    /\ prefix tried (others GEMINI_MODEL models)
    /\ (found = None -> tried = others GEMINI_MODEL models).
Proof.
  revert w. induction models as [|m models IH]; intros w.
  - exists [], None, w. repeat split; [constructor|now exists []].
  - cbn [Server.tryModels]. rewrite others_cons.
    destruct (streq m GEMINI_MODEL); [apply IH|].
    unfold seq.
    destruct (callGeminiAPI text m 0 3 w) as [[a|message] w1] eqn:E.
    + exists [m], (Some a), w1. repeat split.
      * now constructor.
      * now exists (others GEMINI_MODEL models).
      * discriminate.
    + destruct (IH w1) as (tried & found & w' & Hrun & Hscan & [rest Hprefix] & Hall).
      exists (m :: tried), found, w'. repeat split.
      * exact Hrun.
      * econstructor; eassumption.
      * exists rest. cbn [app]. now rewrite Hprefix.
      * intros Hnone. now rewrite (Hall Hnone).
Qed.

Lemma tryModels_trace (text : jsstring) (models : list jsstring) (w : world) :
  exists later, trace (snd (tryModels text models w)) = trace w ++ later.
Proof.
  revert w. induction models as [|m models IH]; intros w.
  - exists []. cbn. now rewrite app_nil_r.
  - cbn [Server.tryModels].
    destruct (streq m GEMINI_MODEL); [apply IH|].
    unfold seq.
    destruct (callGeminiAPI_requests exn_message remote text m 0 3 w) as [l1 E1].
    destruct (callGeminiAPI text m 0 3 w) as [[a|message] w1]; cbn [snd] in E1.
    + cbn [ret snd]. eauto.
    + destruct (IH w1) as [l2 E2]. rewrite E2, E1, <- app_assoc. eauto.
Qed.

(** C5, as the code has it. A text of 1 to 10000 code units that is
    not made of white space only passes validation: the answer is not
    a 400, and a request for the configured model, carrying the trimmed
    text, is sent.  An empty text, a text of white space only and a
    text of more than 10000 code units are answered 400 with
    [{ success: false, error }], and nothing is sent. *)
Theorem validation (reqBody : value) (s : jsstring) (w : world) :
  Get reqBody (js "text") = Normal (VString s) ->
  ((1 <= len s <= 10000)%Z -> trim s <> [] ->
   status (fst (analyze reqBody w)) <> 400%N
   /\ exists later,
       trace (snd (analyze reqBody w)) =
       trace w ++ Request GEMINI_MODEL (trim s) :: later)
  /\ (len s = 0%Z \/ trim s = [] \/ (10000 < len s)%Z ->
      exists error,
        analyze reqBody w = ({| status := 400; json := Failure error |}, w)).
Proof.
  intros Htext. split.
  - intros [_ Hlength] Htrim.
    rewrite (analyze_valid _ w Htext Htrim Hlength).
    destruct (callGeminiAPI_requests exn_message remote (trim s) GEMINI_MODEL 0 3 w)
      as [l1 E1].
    destruct (callGeminiAPI (trim s) GEMINI_MODEL 0 3 w) as [[a|message] w1];
      cbn [snd] in E1.
    + split; [discriminate|]. cbn [snd]. eauto.
    + destruct (modelNotFound message).
      * destruct (tryModels_trace (trim s) alternativeModels w1) as [l2 E2].
        destruct (tryModels (trim s) alternativeModels w1) as [[a|] w2];
          cbn [snd] in E2; (split; [discriminate|]); cbn [snd];
          rewrite E2, E1, <- app_assoc; cbn [app]; eauto.
      * split; [discriminate|]. cbn [snd]. eauto.
  - intros Hbad. unfold Server.analyze. rewrite Htext. cbv beta iota.
    destruct (negb (truthy (VString s)) || (len (trim s) =? 0)%Z)
      eqn:Eempty; [eexists; reflexivity|].
    destruct (10000 <? len s)%Z eqn:Elong; [eexists; reflexivity|].
    exfalso.
    apply orb_false_elim in Eempty as [Etruthy Etrim].
    apply Z.eqb_neq in Etrim. apply Z.ltb_ge in Elong.
    destruct Hbad as [H|[H|H]].
    + destruct s; discriminate.
    + rewrite H in Etrim. now apply Etrim.
    + lia.
Qed.

(** C8. When the call for the configured model is rejected with a
    message that says "not found", the handler calls the models of the
    fixed list, in its order and leaving out the configured one, up to
    the first whose call resolves, and answers with that analysis; if
    none resolves, every one of them has been called and the answer is
    500 "All models failed...".  A rejection with any other message is
    answered at once with 500 and that message, and nothing more is
    sent. *)
Theorem model_fallback (reqBody : value) (s : jsstring) (w w1 : world)
        (message : jsstring) :
  Get reqBody (js "text") = Normal (VString s) ->
  trim s <> [] -> (len s <= 10000)%Z ->
  callGeminiAPI (trim s) GEMINI_MODEL 0 3 w = (Rejected message, w1) ->
  alternativeModels = [js "gemini-1.5-flash-latest"; js "gemini-1.5-flash";
                       js "gemini-1.5-pro"]
  /\ (modelNotFound message = false ->
      analyze reqBody w = (serverError message, w1))
  /\ (modelNotFound message = true ->
      exists tried found w2,
        scanned (fun m => callGeminiAPI (trim s) m 0 3) w1 tried found w2
        /\ prefix tried (others GEMINI_MODEL alternativeModels)
        /\ (found = None -> tried = others GEMINI_MODEL alternativeModels)
        /\ analyze reqBody w =
           (match found with
            | Some analysis => ok analysis
            | None => serverError allModelsFailed
            end, w2)).
Proof.
  intros Htext Htrim Hlength Hprimary.
  split; [reflexivity|].
  rewrite (analyze_valid _ w Htext Htrim Hlength), Hprimary.
  split; intros ->; [reflexivity|].
  destruct (tryModels_scanned (trim s) alternativeModels w1)
    as (tried & found & w2 & Hrun & Hscan & Hprefix & Hall).
  exists tried, found, w2. rewrite Hrun.
  repeat split; try assumption.
  destruct found; reflexivity.
Qed.

End Coordinator.

(* ================================================================== *)
(** * Scenarios                                                        *)
(* ================================================================== *)

(** A rate-limited request, then the specification's scenario in a
    fenced reply: the analysis has its four fields. *)
Lemma callGeminiAPI_populated_witness :
  populated {| sentiment := VString (js "positive");
               themes := VArray [VString (js "work")];
               tone := VString (js "upbeat");
               summary := VString (js "Expresses enjoyment of work.") |}.
Proof.
  eapply (@callGeminiAPI_populated engine_message
            (replies [Response 429 (quota (js "2s"));
                      Response 200 (reply (fenced lovesJob))])
            (js "I love my job") gemma 0 3 start).
  vm_compute. reflexivity.
Defined.

(** Prose instead of JSON. *)
Lemma unparseable_text_falls_back_witness :
  callGeminiAPI engine_message
    (replies [Response 200 (reply (js "I cannot help with that."))])
    (js "I love my job") gemma 0 3 start =
  (Resolved {| sentiment := VString (js "neutral");
               themes := VArray [];
               tone := VString (js "mixed");
               summary := VString (js "I cannot help with that.") |},
   requested start gemma (js "I love my job")).
Proof.
  refine (@unparseable_text_falls_back engine_message _ _ _ 0 3 start _ _
            (js "I cannot help with that.") _ _ _ _ _).
  - vm_compute. reflexivity.
  - vm_compute. reflexivity.
  - vm_compute. reflexivity.
  - discriminate.
  - vm_compute. reflexivity.
Defined.

(** An object that has [themes] only, and not as an array. *)
Lemma missing_fields_defaulted_witness :
  exists a,
    callGeminiAPI engine_message (replies [Response 200 (reply themesOnly)])
                  (js "I love my job") gemma 0 3 start =
    (Resolved a, requested start gemma (js "I love my job"))
    /\ sentiment a = VString (js "neutral")
    /\ themes a = VArray []
    /\ tone a = VString (js "Not specified")
    /\ summary a = VString themesOnly.
Proof.
  destruct (@missing_fields_defaulted engine_message
              (replies [Response 200 (reply themesOnly)])
              (js "I love my job") gemma 0 3 start
              (reply themesOnly)
              (orUndefined (JSON_parse (reply themesOnly)))
              themesOnly
              [(js "themes", VString (js "none"))])
    as (a & Hcall & Hs & Hth & Ht & Hsu).
  - vm_compute. reflexivity.
  - vm_compute. reflexivity.
  - vm_compute. reflexivity.
  - discriminate.
  - vm_compute. reflexivity.
  - exists a. repeat split.
    + exact Hcall.
    + apply Hs. reflexivity.
    + apply Hth. intros v Hv. vm_compute in Hv. injection Hv as <-. reflexivity.
    + apply Ht. reflexivity.
    + rewrite Hsu; reflexivity.
Defined.

(** C4 fails as stated: the candidate text is valid JSON with all four
    fields, [themes] an array, and the analysis resolved has "neutral"
    where the text has the empty string. *)
Lemma blank_sentiment_replaced :
  JSON_parse (stripFence blankSentiment) =
  Some (VObject [(js "sentiment", VString []);
                 (js "themes", VArray []);
                 (js "tone", VString (js "calm"));
                 (js "summary", VString (js "Nothing stands out."))])
  /\ fst (callGeminiAPI engine_message (replies [Response 200 (reply blankSentiment)])
                        (js "I love my job") gemma 0 3 start) =
     Resolved {| sentiment := VString (js "neutral");
                 themes := VArray [];
                 tone := VString (js "calm");
                 summary := VString (js "Nothing stands out.") |}
  /\ fst (callGeminiAPI engine_message (replies [Response 200 (reply blankSentiment)])
                        (js "I love my job") gemma 0 3 start) <>
     Resolved {| sentiment := VString [];
                 themes := VArray [];
                 tone := VString (js "calm");
                 summary := VString (js "Nothing stands out.") |}.
Proof.
  split; [vm_compute; reflexivity|].
  split; [vm_compute; reflexivity|].
  vm_compute. discriminate.
Qed.

(** The specification's scenario. *)
Lemma truthy_fields_kept_witness :
  callGeminiAPI engine_message (replies [Response 200 (reply lovesJob)])
                (js "I love my job") gemma 0 3 start =
  (Resolved {| sentiment := VString (js "positive");
               themes := VArray [VString (js "work")];
               tone := VString (js "upbeat");
               summary := VString (js "Expresses enjoyment of work.") |},
   requested start gemma (js "I love my job")).
Proof.
  refine (@truthy_fields_kept engine_message _ _ _ 0 3 start
            (reply lovesJob) (orUndefined (JSON_parse (reply lovesJob))) lovesJob
            [(js "sentiment", VString (js "positive"));
             (js "themes", VArray [VString (js "work")]);
             (js "tone", VString (js "upbeat"));
             (js "summary", VString (js "Expresses enjoyment of work."))]
            _ _ _ _ _ _ _ _ _ _ _ _ _ _ _ _ _);
    try (vm_compute; reflexivity).
  discriminate.
Defined.

(** C5 fails as stated: a text of length 1, a single space, is
    answered 400. *)
Lemma blank_text_refused :
  len (js " ") = 1%Z
  /\ analyze engine_message gemma (replies [Response 200 (reply lovesJob)])
             (textBody (js " ")) start =
     ({| status := 400; json := Failure pleaseProvide |}, start).
Proof. split; vm_compute; reflexivity. Qed.

(** A text that passes, and a blank one that does not. *)
Lemma validation_witness :
  status (fst (analyze engine_message gemma (replies [Response 200 (reply lovesJob)])
                       (textBody (js " I love my job ")) start)) <> 400%N
  /\ exists error,
      analyze engine_message gemma (replies [Response 200 (reply lovesJob)])
              (textBody (js "   ")) start =
      ({| status := 400; json := Failure error |}, start).
Proof.
  split.
  - destruct (@validation engine_message gemma (replies [Response 200 (reply lovesJob)])
                (textBody (js " I love my job ")) (js " I love my job ") start
                eq_refl) as [Hpass _].
    apply Hpass.
    + vm_compute. split; discriminate.
    + vm_compute. discriminate.
  - destruct (@validation engine_message gemma (replies [Response 200 (reply lovesJob)])
                (textBody (js "   ")) (js "   ") start eq_refl) as [_ Hfail].
    apply Hfail. right; left. vm_compute. reflexivity.
Defined.

(** C6 fails on the code: a 429 whose [retryDelay] does not start with
    a number makes [extractRetryDelay] return [NaN], not 30, and the
    retry is delayed by [NaN] seconds. *)
Theorem unparsable_retryDelay_is_NaN (exn_message : exn -> jsstring)
        (userText modelName : jsstring) :
  exists response,
    JSON_parse (quota (js "soon")) = Some response
    /\ extractRetryDelay response = nan
    /\ extractRetryDelay response <> 30%float
    /\ trace (snd (callGeminiAPI exn_message
                     (replies [Response 429 (quota (js "soon"));
                               Response 200 (reply lovesJob)])
                     userText modelName 0 3 start)) =
       [Request modelName userText; Delay nan; Request modelName userText].
Proof.
  eexists. split; [vm_compute; reflexivity|].
  split; [vm_compute; reflexivity|].
  split; [|vm_compute; reflexivity].
  intros H. apply (f_equal is_nan) in H. vm_compute in H. discriminate.
Qed.

(** The delay named by the provider, and the default. *)
Example extractRetryDelay_seconds :
  option_map extractRetryDelay (JSON_parse (quota (js "34.07s"))) = Some 34%float
  /\ option_map extractRetryDelay (JSON_parse notFound) = Some 30%float.
Proof. split; vm_compute; reflexivity. Qed.

(** Four 429 in a row, with the default of three retries. *)
Lemma rate_limit_exhausted_witness :
  exists message,
    callGeminiAPI engine_message
      (replies [Response 429 (quota (js "2s")); Response 429 (quota (js "2s"));
                Response 429 (quota (js "2s")); Response 429 (quota (js "2s"))])
      (js "I love my job") gemma 0 3 start =
    (Rejected message,
     {| sent := 4;
        trace := [Request gemma (js "I love my job"); Delay 2%float;
                  Request gemma (js "I love my job"); Delay 2%float;
                  Request gemma (js "I love my job"); Delay 2%float;
                  Request gemma (js "I love my job")] |}).
Proof.
  destruct (@rate_limit_exhausted engine_message
              (replies [Response 429 (quota (js "2s")); Response 429 (quota (js "2s"));
                        Response 429 (quota (js "2s")); Response 429 (quota (js "2s"))])
              (js "I love my job") gemma 3
              (repeat (orUndefined (JSON_parse (quota (js "2s")))) 3)
              (quota (js "2s")) 0 start) as [message [E _]].
  - reflexivity.
  - intros i response H.
    destruct i as [|[|[|i]]]; cbn [repeat nth_error] in H;
      try (injection H as <-; exists (quota (js "2s"));
           split; vm_compute; reflexivity).
    destruct i; discriminate.
  - vm_compute. reflexivity.
  - exists message. rewrite E. vm_compute. reflexivity.
Defined.

(** The configured model and the first alternative are unknown to the
    provider, the second alternative answers. *)
Lemma model_fallback_witness :
  exists tried found w2,
    scanned (fun m => callGeminiAPI engine_message
                        (replies [Response 404 notFound; Response 404 notFound;
                                  Response 200 (reply lovesJob)])
                        (js "I love my job") m 0 3)
            (requested start gemma (js "I love my job")) tried found w2
    /\ prefix tried (others gemma alternativeModels)
    /\ (found = None -> tried = others gemma alternativeModels)
    /\ analyze engine_message gemma
               (replies [Response 404 notFound; Response 404 notFound;
                         Response 200 (reply lovesJob)])
               (textBody (js " I love my job ")) start =
       (match found with
        | Some analysis => ok analysis
        | None => serverError allModelsFailed
        end, w2).
Proof.
  refine (proj2 (proj2
            (@model_fallback engine_message gemma
               (replies [Response 404 notFound; Response 404 notFound;
                         Response 200 (reply lovesJob)])
               (textBody (js " I love my job ")) (js " I love my job ")
               start (requested start gemma (js "I love my job"))
               (js "models/gemma-3-27b-it is not found for API version v1beta")
               _ _ _ _)) _).
  - reflexivity.
  - vm_compute. discriminate.
  - vm_compute. discriminate.
  - vm_compute. reflexivity.
  - vm_compute. reflexivity.
Defined.

(** A 200 reply without candidates. *)
Lemma unusable_reply_rejected_witness :
  exists message,
    callGeminiAPI engine_message (replies [Response 200 (jsq "{'candidates':[]}")])
                  (js "I love my job") gemma 0 3 start =
    (Rejected message, requested start gemma (js "I love my job"))
    /\ (In message [js "Empty response from Gemini API";
                    js "Invalid response format: missing content.parts";
                    js "Invalid response format: missing candidates"]
        \/ exists e, message = js "Failed to parse API response: " ++ engine_message e).
Proof.
  refine (@unusable_reply_rejected engine_message _ _ _ 0 3 start
            (jsq "{'candidates':[]}")
            (VObject [(js "candidates", VArray [])]) _ _ _).
  - vm_compute. reflexivity.
  - vm_compute. reflexivity.
  - intros (text & H & _). vm_compute in H. discriminate.
Defined.

(** A 503 with an HTML body, and a 429 with one. *)
Lemma unparseable_body_rejected_witness :
  callGeminiAPI engine_message
    (replies [Response 429 (js "<html>Too Many Requests</html>")])
    (js "I love my job") gemma 0 3 start =
  (Rejected (js "Failed to parse API response: "
             ++ engine_message (SyntaxError (js "<html>Too Many Requests</html>"))),
   requested start gemma (js "I love my job")).
Proof.
  refine (proj1 (@unparseable_body_rejected engine_message _ _ _ 0 3 start 429
                   (js "<html>Too Many Requests</html>") _) _).
  - vm_compute. reflexivity.
  - vm_compute. reflexivity.
Defined.

(* ================================================================== *)
(** * Further properties                                               *)
(* ================================================================== *)

(** ** Call chains *)

Section Chains.

Variable exn_message : exn -> jsstring.
Variable remote : nat -> outcome.

Local Abbreviation callGeminiAPI := (callGeminiAPI exn_message remote).
Local Abbreviation attempts := (attempts exn_message remote).
Local Abbreviation settle := (settle exn_message).

(** The shape of a chain, for any number of retries left. *)
Lemma attempts_chain (budget : nat) (userText modelName : jsstring)
      (retryCount : nat) (w : world) :
  exists responses,
    snd (attempts budget userText modelName retryCount w) =
    {| sent := sent w + List.length responses + 1;
       trace := trace w
                ++ backoffs modelName userText (map extractRetryDelay responses) |}
    /\ List.length responses <= budget
    /\ forall i response,
        nth_error responses i = Some response ->
        exists data, remote (sent w + i) = Response 429 data
                     /\ JSON_parse data = Some response.
Proof.
  revert retryCount w.
  assert (forall w : world,
             requested w modelName userText =
             {| sent := sent w + 0 + 1;
                trace := trace w ++ backoffs modelName userText [] |}) as Hone
      by (intros w; unfold requested; cbn [backoffs]; f_equal; lia).
  assert (forall (w : world) (i : nat) (response : value),
             nth_error (@nil value) i = Some response ->
             exists data, remote (sent w + i) = Response 429 data
                          /\ JSON_parse data = Some response) as Hnil
      by (intros w [|i] response H; discriminate).
  induction budget as [|budget IH]; intros retryCount w;
    rewrite attempts_equation;
    destruct (remote (sent w)) as [statusCode data|message] eqn:Hremote;
    try (exists []; cbn [snd List.length map]; split; [apply Hone|];
         split; [lia|apply Hnil]);
    destruct (JSON_parse data) as [response|] eqn:Hdata;
    try (exists []; cbn [snd List.length map]; split; [apply Hone|];
         split; [lia|apply Hnil]).
  destruct (N.eqb statusCode 429) eqn:Hstatus;
    [|exists []; cbn [snd List.length map]; split; [apply Hone|];
      split; [lia|apply Hnil]].
  apply N.eqb_eq in Hstatus; subst statusCode.
  destruct (IH (S retryCount)
               (snd (delay (extractRetryDelay response)
                           (requested w modelName userText))))
    as (responses & Hworld & Hlength & Hretried).
  exists (response :: responses). split; [|split].
  - rewrite Hworld. cbn [delay snd sent trace requested List.length map backoffs].
    f_equal; [lia|]. rewrite <- !app_assoc. reflexivity.
  - cbn [List.length]. lia.
  - intros [|i] r Hr.
    + injection Hr as <-. exists data. rewrite Nat.add_0_r. auto.
    + destruct (Hretried i r Hr) as (d & Hd & Pd).
      exists d. split; [|exact Pd]. rewrite <- Hd.
      cbn [delay snd sent requested]. f_equal. lia.
Qed.

(** X1. The events of a call chain alternate: request, delay, request,
    and so on, ending with a request.  There are at most
    [maxRetries - retryCount] delays, so at most one request more than
    that; every delay follows a 429 whose body was JSON, and lasts what
    [extractRetryDelay] made of that body. *)
Theorem callGeminiAPI_chain (userText modelName : jsstring)
        (retryCount maxRetries : nat) (w : world) :
  exists responses,
    snd (callGeminiAPI userText modelName retryCount maxRetries w) =
    {| sent := sent w + List.length responses + 1;
       trace := trace w
                ++ backoffs modelName userText (map extractRetryDelay responses) |}
    /\ List.length responses <= maxRetries - retryCount
    /\ forall i response,
        nth_error responses i = Some response ->
        exists data, remote (sent w + i) = Response 429 data
                     /\ JSON_parse data = Some response.
Proof. apply attempts_chain. Qed.

(** How a response that is not retried is settled. *)
Lemma callGeminiAPI_settled (userText modelName : jsstring)
      (retryCount maxRetries : nat) (w : world)
      (statusCode : N) (data : jsstring) (response : value) :
  remote (sent w) = Response statusCode data ->
  JSON_parse data = Some response ->
  statusCode <> 429%N \/ maxRetries <= retryCount ->
  callGeminiAPI userText modelName retryCount maxRetries w =
  (settle statusCode response, requested w modelName userText).
Proof.
  intros Hremote Hdata Hfinal.
  rewrite callGeminiAPI_equation, Hremote, Hdata.
  destruct Hfinal as [Hstatus|Hbudget].
  - apply N.eqb_neq in Hstatus. now rewrite Hstatus.
  - assert (Nat.ltb retryCount maxRetries = false) as ->
        by (apply Nat.ltb_ge; lia).
    now rewrite andb_false_r.
Qed.

(** X2. A response with another status than 200 that is not retried
    rejects with the provider's own words: with [error.message] when
    that is a non-empty string; with [error.code], printed, when there
    is no truthy message and the code is a truthy number; and with
    "API request failed with status N" when neither is truthy. *)
Theorem remote_error_relayed (userText modelName : jsstring)
        (retryCount maxRetries : nat) (w : world)
        (statusCode : N) (data : jsstring) (response message code : value) :
  remote (sent w) = Response statusCode data ->
  JSON_parse data = Some response ->
  statusCode <> 200%N ->
  statusCode <> 429%N \/ maxRetries <= retryCount ->
  errorField response (js "message") = Normal message ->
  errorField response (js "code") = Normal code ->
  exists text,
    callGeminiAPI userText modelName retryCount maxRetries w =
    (Rejected text, requested w modelName userText)
    /\ (forall s, message = VString s -> s <> [] -> text = s)
    /\ (forall x, truthy message = false -> code = VNumber x ->
                  truthy code = true -> text = Number_toString x)
    /\ (truthy message = false -> truthy code = false ->
        text = js "API request failed with status " ++ decimalOfN statusCode).
Proof.
  intros Hremote Hdata Hstatus Hfinal Hmessage Hcode.
  rewrite (callGeminiAPI_settled _ _ w Hremote Hdata Hfinal).
  set (chosen := if truthy message then message
                 else if truthy code then code
                      else VString (js "API request failed with status "
                                    ++ decimalOfN statusCode)).
  assert (readError statusCode response =
          (let? text := ToString chosen in Normal (Rejected text))) as Hread.
  { unfold readError, errorField, orElse, chosen in *.
    destruct (Get response (js "error")) as [error|]; [|discriminate].
    cbn [bind] in *. rewrite Hmessage. cbn [bind].
    destruct (truthy message); [reflexivity|].
    rewrite Hcode. cbn [bind]. destruct (truthy code); reflexivity. }
  unfold Server.settle. apply N.eqb_neq in Hstatus.
  rewrite Hstatus, Hread. cbn [negb].
  destruct (ToString chosen) as [text|e] eqn:E; cbn [bind];
    eexists; (split; [reflexivity|]); unfold chosen in E; repeat split.
  - intros s -> Hs. apply truthy_string in Hs. rewrite Hs in E.
    cbn [ToString] in E. congruence.
  - intros x Tm -> Tc. rewrite Tm, Tc in E. cbn [ToString] in E. congruence.
  - intros Tm Tc. rewrite Tm, Tc in E. cbn [ToString] in E. congruence.
  - intros s -> Hs. apply truthy_string in Hs. rewrite Hs in E.
    cbn [ToString] in E. congruence.
  - intros x Tm -> Tc. rewrite Tm, Tc in E. cbn [ToString] in E. congruence.
  - intros Tm Tc. rewrite Tm, Tc in E. cbn [ToString] in E. congruence.
Qed.

(** X8. For a 200 response with a JSON body, [callGeminiAPI] resolves
    if and only if the reply is usable: its first candidate's first part
    has a non-empty string as text.  What that text says does not
    matter. *)
Theorem resolves_iff_usable (userText modelName : jsstring)
        (retryCount maxRetries : nat) (w : world)
        (data : jsstring) (response : value) :
  remote (sent w) = Response 200 data ->
  JSON_parse data = Some response ->
  (exists a, fst (callGeminiAPI userText modelName retryCount maxRetries w)
             = Resolved a)
  <-> usable response.
Proof.
  intros Hremote Hdata.
  rewrite (callGeminiAPI_settled _ _ w Hremote Hdata) by (left; discriminate).
  cbn [fst]. rewrite settle_200. split.
  - intros [a H].
    destruct (readCandidate response) as [r|e] eqn:E; [|discriminate].
    subst r. apply readCandidate_resolved in E as (text & H1 & H2 & _).
    exists text. auto.
  - intros (text & Htext & Hnonempty).
    rewrite (readCandidate_usable _ Htext Hnonempty). eauto.
Qed.

(** What is made of a usable reply. *)
Lemma callGeminiAPI_usable (userText modelName : jsstring)
      (retryCount maxRetries : nat) (w : world)
      (data : jsstring) (response : value) (text : jsstring) :
  remote (sent w) = Response 200 data ->
  JSON_parse data = Some response ->
  candidateText response = Normal (VString text) ->
  text <> [] ->
  callGeminiAPI userText modelName retryCount maxRetries w =
  (Resolved (parseAnalysis text (stripFence text)),
   requested w modelName userText).
Proof.
  intros Hremote Hdata Hcandidate Htext.
  rewrite (callGeminiAPI_settled _ _ w Hremote Hdata) by (left; discriminate).
  now rewrite settle_200, (readCandidate_usable _ Hcandidate Htext).
Qed.

(** X9. When the candidate text is JSON but no object: for [null] the
    analysis is the fallback (tone "mixed", 500 code units of summary),
    because reading a field of [null] throws; for a boolean, a number, a
    string or an array it is made of the four defaults (tone "Not
    specified", 200 code units of summary). *)
Theorem non_object_analysis (userText modelName : jsstring)
        (retryCount maxRetries : nat) (w : world)
        (data : jsstring) (response : value) (text : jsstring) (v : value) :
  remote (sent w) = Response 200 data ->
  JSON_parse data = Some response ->
  candidateText response = Normal (VString text) ->
  text <> [] ->
  JSON_parse (stripFence text) = Some v ->
  (v = VNull ->
   fst (callGeminiAPI userText modelName retryCount maxRetries w) =
   Resolved {| sentiment := VString (js "neutral");
               themes := VArray [];
               tone := VString (js "mixed");
               summary := VString (firstn 500 text) |})
  /\ (scalarOrArray v = true ->
      fst (callGeminiAPI userText modelName retryCount maxRetries w) =
      Resolved {| sentiment := VString (js "neutral");
                  themes := VArray [];
                  tone := VString (js "Not specified");
                  summary := VString (firstn 200 text) |}).
Proof.
  intros Hremote Hdata Hcandidate Htext Hjson.
  rewrite (callGeminiAPI_usable _ _ _ _ w Hremote Hdata Hcandidate Htext).
  cbn [fst]. unfold parseAnalysis. rewrite Hjson. cbn [bind]. split.
  - intros ->. reflexivity.
  - intros Hv.
    assert (forall k, In k [js "sentiment"; js "themes"; js "tone"; js "summary"] ->
                      Get v k = Normal VUndefined) as Hget.
    { intros k Hk.
      assert (streq k (js "length") = false /\ arrayIndex k = None) as [Hl Hi]
          by (cbn [In] in Hk; decompose [or] Hk; subst; try contradiction;
              split; reflexivity).
      destruct v; try discriminate; cbn [Get]; rewrite ?Hl, ?Hi; reflexivity. }
    rewrite !Hget by (cbn [In]; auto 6).
    reflexivity.
Qed.

(** X10. A field of the model's JSON object that is there but falsy (the
    empty string, 0, [false], [null]) is treated as if it were missing:
    it is replaced by its default. *)
Theorem falsy_fields_defaulted (userText modelName : jsstring)
        (retryCount maxRetries : nat) (w : world)
        (data : jsstring) (response : value) (text : jsstring)
        (props : list (jsstring * value)) :
  remote (sent w) = Response 200 data ->
  JSON_parse data = Some response ->
  candidateText response = Normal (VString text) ->
  text <> [] ->
  JSON_parse (stripFence text) = Some (VObject props) ->
  exists a,
    fst (callGeminiAPI userText modelName retryCount maxRetries w) = Resolved a
    /\ (forall v, lookup (js "sentiment") props = Some v -> truthy v = false ->
                  sentiment a = VString (js "neutral"))
    /\ (forall v, lookup (js "tone") props = Some v -> truthy v = false ->
                  tone a = VString (js "Not specified"))
    /\ (forall v, lookup (js "summary") props = Some v -> truthy v = false ->
                  summary a = VString (firstn 200 text)).
Proof.
  intros Hremote Hdata Hcandidate Htext Hjson.
  rewrite (callGeminiAPI_usable _ _ _ _ w Hremote Hdata Hcandidate Htext).
  rewrite (parseAnalysis_object _ _ Hjson).
  eexists. split; [reflexivity|].
  cbn [sentiment tone summary].
  repeat split; intros v -> Hv; cbn [orUndefined]; now rewrite Hv.
Qed.

End Chains.

(** ** The retry delay *)

Lemma firstRetryDelay_silent (pre rest : list value) :
  Forall silent pre -> firstRetryDelay (pre ++ rest) = firstRetryDelay rest.
Proof.
  induction 1 as [|detail pre (v & Hv & Tv) _ IH]; [reflexivity|].
  cbn [app firstRetryDelay]. rewrite Hv. cbn [bind]. now rewrite Tv.
Qed.

Lemma extractRetryDelay_array (response : value) (details : list value) :
  errorField response (js "details") = Normal (VArray details) ->
  extractRetryDelay response =
  match firstRetryDelay details with
  | Normal (Some seconds) => seconds
  | _ => 30%float
  end.
Proof.
  unfold errorField, extractRetryDelay. intros H.
  destruct (Get response (js "error")) as [error|]; [|discriminate].
  cbn [bind] in *. rewrite H. reflexivity.
Qed.

(** X4. The delay comes from the first detail, in the order of the
    list, that has a truthy [retryDelay]: it is [parseInt] of that
    value, whatever the details after it say (and 30 if converting the
    value to a string throws). *)
Theorem first_retryDelay_wins (response : value) (pre post : list value)
        (detail v : value) :
  errorField response (js "details") = Normal (VArray (pre ++ detail :: post)) ->
  Forall silent pre ->
  Get detail (js "retryDelay") = Normal v ->
  truthy v = true ->
  extractRetryDelay response =
  match parseInt10 v with
  | Normal seconds => seconds
  | Throw _ => 30%float
  end.
Proof.
  intros Hdetails Hpre Hv Tv.
  rewrite (extractRetryDelay_array _ Hdetails), (firstRetryDelay_silent _ Hpre).
  cbn [firstRetryDelay]. rewrite Hv. cbn [bind]. rewrite Tv.
  destruct (parseInt10 v); reflexivity.
Qed.

Lemma isDigit_range (c : N) : isDigit c = true -> (48 <= c <= 57)%N.
Proof.
  unfold isDigit. intros H. apply andb_prop in H as [H1 H2].
  apply N.leb_le in H1. apply N.leb_le in H2. lia.
Qed.

Lemma isDigit_plain (c : N) :
  isDigit c = true ->
  isWhiteSpace c = false /\ N.eqb c 45 = false /\ N.eqb c 43 = false.
Proof.
  intros H. apply isDigit_range in H.
  assert (c = 48 \/ c = 49 \/ c = 50 \/ c = 51 \/ c = 52 \/ c = 53 \/ c = 54
          \/ c = 55 \/ c = 56 \/ c = 57)%N as Hc by lia.
  decompose [or] Hc; subst c; repeat split; reflexivity.
Qed.

Lemma takeDigits_app (digits rest : jsstring) :
  forallb isDigit digits = true ->
  match rest with
  | c :: _ => isDigit c = false
  | [] => True
  end ->
  takeDigits (digits ++ rest) = (digits, rest).
Proof.
  intros Hdigits Hrest. unfold takeDigits.
  induction digits as [|d digits IH].
  - destruct rest as [|c rest]; [reflexivity|]. cbn [app]. now rewrite Hrest.
  - cbn [forallb] in Hdigits. apply andb_prop in Hdigits as [Hd Hdigits].
    cbn [app]. rewrite Hd, (IH Hdigits). reflexivity.
Qed.

(** [parseInt] of digits followed by anything that is no digit. *)
Lemma parseInt10_digits (digits rest : jsstring) :
  digits <> [] ->
  forallb isDigit digits = true ->
  match rest with
  | c :: _ => isDigit c = false
  | [] => True
  end ->
  parseInt10 (VString (digits ++ rest)) = Normal (Number_ofZ (digitsValue 0 digits)).
Proof.
  intros Hnonempty Hdigits Hrest.
  destruct digits as [|d digits]; [congruence|].
  pose proof Hdigits as Hall.
  cbn [forallb] in Hdigits. apply andb_prop in Hdigits as [Hd _].
  destruct (isDigit_plain d Hd) as (Hws & Hminus & Hplus).
  unfold parseInt10. cbn [ToString bind app trimStart].
  rewrite Hws, Hminus, Hplus.
  change (d :: digits ++ rest) with ((d :: digits) ++ rest).
  rewrite (takeDigits_app _ _ Hall Hrest). reflexivity.
Qed.

(** X5. When the first truthy [retryDelay] is a string that starts
    with decimal digits, as in "34.07s", the delay is the number these
    digits write: whole seconds, whatever follows them. *)
Theorem retryDelay_whole_seconds (response : value) (pre post : list value)
        (detail : value) (digits rest : jsstring) :
  errorField response (js "details") = Normal (VArray (pre ++ detail :: post)) ->
  Forall silent pre ->
  Get detail (js "retryDelay") = Normal (VString (digits ++ rest)) ->
  digits <> [] ->
  forallb isDigit digits = true ->
  match rest with
  | c :: _ => isDigit c = false
  | [] => True
  end ->
  extractRetryDelay response = Number_ofZ (digitsValue 0 digits).
Proof.
  intros Hdetails Hpre Hv Hnonempty Hdigits Hrest.
  rewrite (extractRetryDelay_array _ Hdetails), (firstRetryDelay_silent _ Hpre).
  cbn [firstRetryDelay]. rewrite Hv. cbn [bind].
  assert (truthy (VString (digits ++ rest)) = true) as ->
      by (apply truthy_string; destruct digits; [congruence|discriminate]).
  now rewrite (parseInt10_digits _ Hnonempty Hdigits Hrest).
Qed.

(** X6. The delay is 30 seconds when [errorResponse.error?.details]
    cannot be read, when it is no array, when no detail has a truthy
    [retryDelay], and also when a detail that cannot be read ([null])
    comes before any that has one: the exception is swallowed and the
    details after it are not looked at. *)
Theorem retryDelay_defaults (response : value) :
  (forall e, errorField response (js "details") = Throw e ->
             extractRetryDelay response = 30%float)
  /\ (forall details,
         errorField response (js "details") = Normal details ->
         isArray details = false ->
         extractRetryDelay response = 30%float)
  /\ (forall pre rest,
         errorField response (js "details") = Normal (VArray (pre ++ rest)) ->
         Forall silent pre ->
         rest = [] \/ (exists detail post e,
                          rest = detail :: post
                          /\ Get detail (js "retryDelay") = Throw e) ->
         extractRetryDelay response = 30%float).
Proof.
  repeat split.
  - unfold errorField, extractRetryDelay. intros e H.
    destruct (Get response (js "error")) as [error|]; [|reflexivity].
    cbn [bind] in *. now rewrite H.
  - unfold errorField, extractRetryDelay. intros details H Harray.
    destruct (Get response (js "error")) as [error|]; [|reflexivity].
    cbn [bind] in *. rewrite H. cbn [bind].
    now rewrite Harray, andb_false_r.
  - intros pre rest Hdetails Hpre Hrest.
    rewrite (extractRetryDelay_array _ Hdetails), (firstRetryDelay_silent _ Hpre).
    destruct Hrest as [->|(detail & post & e & -> & Hthrow)]; [reflexivity|].
    cbn [firstRetryDelay]. now rewrite Hthrow.
Qed.

(** ** The markdown fence *)

Lemma trimStart_clean (c : N) (s : jsstring) :
  isWhiteSpace c = false -> trimStart (c :: s) = c :: s.
Proof. intros H. cbn [trimStart]. now rewrite H. Qed.

Lemma trimEnd_snoc_space (s : jsstring) (c : N) :
  isWhiteSpace c = true -> trimEnd (s ++ [c]) = trimEnd s.
Proof.
  intros H. unfold trimEnd. rewrite rev_app_distr. cbn [rev app trimStart].
  now rewrite H.
Qed.

Lemma trimEnd_snoc_clean (s : jsstring) (c : N) :
  isWhiteSpace c = false -> trimEnd (s ++ [c]) = s ++ [c].
Proof.
  intros H. unfold trimEnd. rewrite rev_app_distr. cbn [rev app].
  rewrite trimStart_clean by exact H.
  change (c :: rev s) with ([c] ++ rev s).
  now rewrite rev_app_distr, rev_involutive.
Qed.

Lemma trimStart_snoc_space (s : jsstring) (c : N) :
  isWhiteSpace c = true -> trimEnd (trimStart (s ++ [c])) = trimEnd (trimStart s).
Proof.
  intros H. induction s as [|d s IH].
  - cbn [app trimStart]. now rewrite H.
  - cbn [app trimStart]. destruct (isWhiteSpace d); [exact IH|].
    change (d :: s ++ [c]) with ((d :: s) ++ [c]).
    now apply trimEnd_snoc_space.
Qed.

(** A line feed at the end does not survive [trim]. *)
Lemma trim_snoc_LF (s : jsstring) : trim (s ++ [LF]) = trim s.
Proof. unfold trim. now apply trimStart_snoc_space. Qed.

(** Where there is no backtick, nothing is removed. *)
Lemma removeAll_plain (lit s rest : jsstring) :
  plain s -> (exists lit', lit = 96%N :: lit') ->
  removeAll lit 0 (s ++ rest) = s ++ removeAll lit 0 rest.
Proof.
  intros Hplain [lit' ->].
  induction Hplain as [|c s Hc _ IH]; [reflexivity|].
  cbn [app removeAll startsWith].
  apply N.eqb_neq in Hc. rewrite Hc. cbn [andb]. now rewrite IH.
Qed.

(** X7. A text that models wrap in a markdown fence comes out as if it
    had not been wrapped: for [body] without a backtick, both the
    fence "```json" and the bare fence "```", each on a line of its own
    around [body], are stripped down to [body], trimmed. *)
Theorem stripFence_unwraps (body : jsstring) :
  plain body ->
  stripFence (js "```json" ++ [LF] ++ body ++ [LF] ++ js "```") = trim body
  /\ stripFence (js "```" ++ [LF] ++ body ++ [LF] ++ js "```") = trim body.
Proof.
  intros Hplain.
  assert (forall s : jsstring,
             trim (96%N :: s ++ [LF] ++ js "```") = 96%N :: s ++ [LF] ++ js "```")
    as Hkeep.
  { intros s. unfold trim. rewrite trimStart_clean by reflexivity.
    unfold trimEnd.
    change (96%N :: s ++ [LF] ++ js "```") with ((96%N :: s) ++ [LF; 96; 96; 96]%N).
    rewrite rev_app_distr.
    change (rev [LF; 96; 96; 96]%N ++ rev (96%N :: s))
      with (96%N :: [96; 96; LF]%N ++ rev (96%N :: s)).
    rewrite trimStart_clean by reflexivity.
    change (96%N :: [96; 96; LF]%N ++ rev (96%N :: s))
      with (rev [LF; 96; 96; 96]%N ++ rev (96%N :: s)).
    now rewrite <- rev_app_distr, rev_involutive. }
  split.
  - unfold stripFence.
    change (js "```json" ++ [LF] ++ body ++ [LF] ++ js "```")
      with (96%N :: (js "``json" ++ [LF] ++ body) ++ [LF] ++ js "```").
    rewrite Hkeep.
    change (96%N :: (js "``json" ++ [LF] ++ body) ++ [LF] ++ js "```")
      with (js "```json" ++ [LF] ++ body ++ [LF] ++ js "```").
    change (startsWith (js "```json" ++ [LF] ++ body ++ [LF] ++ js "```")
                       (js "```json")) with true.
    cbv iota.
    change (removeAll (js "```json") 0
                      (js "```json" ++ [LF] ++ body ++ [LF] ++ js "```"))
      with (removeAll (js "```json") 0 (body ++ [LF] ++ js "```")).
    rewrite (removeAll_plain _ Hplain) by (now eexists).
    change (removeAll (js "```json") 0 ([LF] ++ js "```")) with ([LF] ++ js "```").
    rewrite (removeAll_plain _ Hplain) by (now eexists).
    change (removeAll (js "```") 0 ([LF] ++ js "```")) with [LF].
    apply trim_snoc_LF.
  - unfold stripFence.
    change (js "```" ++ [LF] ++ body ++ [LF] ++ js "```")
      with (96%N :: (js "``" ++ [LF] ++ body) ++ [LF] ++ js "```").
    rewrite Hkeep.
    change (96%N :: (js "``" ++ [LF] ++ body) ++ [LF] ++ js "```")
      with (js "```" ++ [LF] ++ body ++ [LF] ++ js "```").
    change (startsWith (js "```" ++ [LF] ++ body ++ [LF] ++ js "```")
                       (js "```json")) with false.
    change (startsWith (js "```" ++ [LF] ++ body ++ [LF] ++ js "```")
                       (js "```")) with true.
    cbv iota.
    change (removeAll (js "```") 0
                      (js "```" ++ [LF] ++ body ++ [LF] ++ js "```"))
      with (removeAll (js "```") 0 (body ++ [LF] ++ js "```")).
    rewrite (removeAll_plain _ Hplain) by (now eexists).
    change (removeAll (js "```") 0 ([LF] ++ js "```")) with [LF].
    apply trim_snoc_LF.
Qed.

(** ** The handler *)

Section Handler.

Variable exn_message : exn -> jsstring.
Variable GEMINI_MODEL : jsstring.
Variable remote : nat -> outcome.

Local Abbreviation callGeminiAPI := (callGeminiAPI exn_message remote).
Local Abbreviation attempts := (attempts exn_message remote).
Local Abbreviation tryModels := (tryModels exn_message GEMINI_MODEL remote).
Local Abbreviation analyze := (analyze exn_message GEMINI_MODEL remote).



Lemma tryModels_bounded (text : jsstring) (models : list jsstring) (w : world) :
  sent w <= sent (snd (tryModels text models w))
  <= sent w + 4 * List.length models.
Proof.
  revert w. induction models as [|m models IH]; intros w.
  - cbn. lia.
  - cbn [Server.tryModels List.length].
    destruct (streq m GEMINI_MODEL).
    + specialize (IH w). lia.
    + unfold seq.
      pose proof (callGeminiAPI_bounded exn_message remote text m 0 3 w) as Hcall.
      destruct (callGeminiAPI text m 0 3 w) as [[a|message] w1];
        cbn [snd ret] in *.
      * lia.
      * specialize (IH w1). lia.
Qed.



(** X12. The handler sends a request to the provider if and only if
    [req.body.text] is a string of at most 10000 code units that is not
    made of white space only.  A missing body, a missing text and a text
    that is a number, a list or an object never reach the provider. *)
Theorem requests_iff_valid (reqBody : value) (w : world) :
  sent w < sent (snd (analyze reqBody w))
  <-> exists s, Get reqBody (js "text") = Normal (VString s)
                /\ trim s <> [] /\ (len s <= 10000)%Z.
Proof.
  split.
  - unfold Server.analyze.
    destruct (Get reqBody (js "text")) as [text|e]; [|cbn; lia].
    destruct text as [| | | |s| |]; try (cbn; lia).
    destruct (negb (truthy (VString s)) || (len (trim s) =? 0)%Z) eqn:Eempty;
      [cbn; lia|].
    destruct (10000 <? len s)%Z eqn:Elong; [cbn; lia|].
    intros _. exists s. split; [reflexivity|].
    apply orb_false_elim in Eempty as [_ Etrim].
    apply Z.eqb_neq in Etrim. apply Z.ltb_ge in Elong.
    split; [|exact Elong]. intros H. rewrite H in Etrim. now apply Etrim.
  - intros (s & Htext & Htrim & Hlength).
    rewrite (analyze_valid _ _ _ _ w Htext Htrim Hlength).
    pose proof (callGeminiAPI_bounded exn_message remote (trim s) GEMINI_MODEL 0 3 w)
      as Hcall.
    destruct (callGeminiAPI (trim s) GEMINI_MODEL 0 3 w) as [[a|message] w1];
      cbn [snd] in *; [lia|].
    destruct (modelNotFound message); [|cbn [snd]; lia].
    pose proof (tryModels_bounded (trim s) alternativeModels w1) as Halt.
    destruct (tryModels (trim s) alternativeModels w1) as [[a|] w2];
      cbn [snd] in *; lia.
Qed.

(** X13. One request to [POST /api/analyze] never causes more than 16
    requests to the provider: at most four for the configured model and
    at most four for each of the three alternatives. *)
Theorem analyze_bounded (reqBody : value) (w : world) :
  sent (snd (analyze reqBody w)) <= sent w + 16.
Proof.
  unfold Server.analyze.
  destruct (Get reqBody (js "text")) as [text|e]; [|cbn; lia].
  destruct text as [| | | |s| |]; try (cbn; lia).
  destruct (negb (truthy (VString s)) || (len (trim s) =? 0)%Z); [cbn; lia|].
  destruct (10000 <? len s)%Z; [cbn; lia|].
  unfold seq.
  pose proof (callGeminiAPI_bounded exn_message remote (trim s) GEMINI_MODEL 0 3 w)
    as Hcall.
  destruct (callGeminiAPI (trim s) GEMINI_MODEL 0 3 w) as [[a|message] w1];
    cbn [snd ret] in *; [lia|].
  destruct (modelNotFound message); [|cbn [snd ret]; lia].
  pose proof (tryModels_bounded (trim s) alternativeModels w1) as Halt.
  change (List.length alternativeModels) with 3 in Halt.
  destruct (tryModels (trim s) alternativeModels w1) as [[a|] w2];
    cbn [snd ret] in *; lia.
Qed.

Lemma backoffs_carry (text modelName : jsstring) (models : list jsstring)
      (delays : list number) :
  In modelName models -> Forall (carries text models) (backoffs modelName text delays).
Proof.
  intros Hin. induction delays as [|d delays IH]; cbn [backoffs].
  - constructor; [split; auto|constructor].
  - constructor; [split; auto|]. constructor; [exact I|exact IH].
Qed.

Lemma callGeminiAPI_carries (text modelName : jsstring) (models : list jsstring)
      (retryCount maxRetries : nat) (w : world) :
  In modelName models ->
  exists later,
    trace (snd (callGeminiAPI text modelName retryCount maxRetries w)) =
    trace w ++ later
    /\ Forall (carries text models) later.
Proof.
  intros Hin.
  destruct (attempts_chain exn_message remote (maxRetries - retryCount)
                           text modelName retryCount w)
    as (responses & Hworld & _).
  unfold Server.callGeminiAPI. rewrite Hworld. cbn [trace].
  eexists. split; [reflexivity|]. now apply backoffs_carry.
Qed.

Lemma tryModels_carries (text : jsstring) (models allowed : list jsstring)
      (w : world) :
  incl models allowed ->
  exists later,
    trace (snd (tryModels text models w)) = trace w ++ later
    /\ Forall (carries text allowed) later.
Proof.
  revert w. induction models as [|m models IH]; intros w Hincl.
  - exists []. cbn. rewrite app_nil_r. auto.
  - assert (incl models allowed) as Hrest
        by (intros x Hx; apply Hincl; now right).
    cbn [Server.tryModels].
    destruct (streq m GEMINI_MODEL); [now apply IH|].
    unfold seq.
    destruct (@callGeminiAPI_carries text m allowed 0 3 w) as (l1 & E1 & F1);
      [apply Hincl; now left|].
    destruct (callGeminiAPI text m 0 3 w) as [[a|message] w1]; cbn [snd] in E1.
    + cbn [ret snd]. eauto.
    + destruct (IH w1 Hrest) as (l2 & E2 & F2).
      exists (l1 ++ l2). rewrite E2, E1, <- app_assoc.
      split; [reflexivity|]. apply Forall_app. auto.
Qed.

(** X14. Every request the handler sends carries the trimmed text,
    never the text as received, and asks for the configured model or
    for one of the three alternatives; nothing else is ever asked of the
    provider. *)
Theorem analyze_requests (reqBody : value) (s : jsstring) (w : world) :
  Get reqBody (js "text") = Normal (VString s) ->
  exists later,
    trace (snd (analyze reqBody w)) = trace w ++ later
    /\ Forall (carries (trim s) (GEMINI_MODEL :: alternativeModels)) later.
Proof.
  intros Htext.
  assert (exists later : list event,
             trace w = trace w ++ later
             /\ Forall (carries (trim s) (GEMINI_MODEL :: alternativeModels)) later)
    as Hnone by (exists []; rewrite app_nil_r; auto).
  unfold Server.analyze. rewrite Htext. cbv beta iota.
  destruct (negb (truthy (VString s)) || (len (trim s) =? 0)%Z); [exact Hnone|].
  destruct (10000 <? len s)%Z; [exact Hnone|].
  unfold seq.
  destruct (@callGeminiAPI_carries (trim s) GEMINI_MODEL
              (GEMINI_MODEL :: alternativeModels) 0 3 w) as (l1 & E1 & F1);
    [now left|].
  destruct (callGeminiAPI (trim s) GEMINI_MODEL 0 3 w) as [[a|message] w1];
    cbn [snd] in E1; [cbn [ret snd]; eauto|].
  destruct (modelNotFound message); [|cbn [ret snd]; eauto].
  destruct (@tryModels_carries (trim s) alternativeModels
              (GEMINI_MODEL :: alternativeModels) w1) as (l2 & E2 & F2);
    [intros x Hx; now right|].
  destruct (tryModels (trim s) alternativeModels w1) as [[a|] w2];
    cbn [snd ret] in *; exists (l1 ++ l2); rewrite E2, E1, <- app_assoc;
    (split; [reflexivity|]); apply Forall_app; auto.
Qed.

(** X3. A transport failure of the first request is not retried: the
    handler answers 500 with "Request failed: " and the transport's
    message, after that single request, unless this text happens to
    contain "not found". *)
Theorem transport_failure_answered (reqBody : value) (s : jsstring) (w : world)
        (message : jsstring) :
  Get reqBody (js "text") = Normal (VString s) ->
  trim s <> [] -> (len s <= 10000)%Z ->
  remote (sent w) = NetworkError message ->
  modelNotFound (js "Request failed: " ++ message) = false ->
  analyze reqBody w =
  ({| status := 500; json := Failure (js "Request failed: " ++ message) |},
   requested w GEMINI_MODEL (trim s)).
Proof.
  intros Htext Htrim Hlength Hremote Hfound.
  rewrite (analyze_valid _ _ _ _ w Htext Htrim Hlength).
  rewrite callGeminiAPI_equation, Hremote, Hfound.
  reflexivity.
Qed.

End Handler.

(** ** The catalog *)

Section CatalogProperties.

Variable exn_message : exn -> jsstring.
Variable GEMINI_BASE_URL : jsstring.
Variable GEMINI_API_VERSION : jsstring.
Variable GEMINI_MODEL : jsstring.

Local Abbreviation listAvailableModels := (Catalog.listAvailableModels exn_message).
Local Abbreviation listModels :=
  (Catalog.listModels exn_message GEMINI_BASE_URL GEMINI_API_VERSION GEMINI_MODEL).



(** X16. When the provider answers the listing with another status
    than 200 and a JSON body, [GET /api/models] answers 500 with the
    provider's [error.message] if that is a non-empty string, and with
    "Failed to list models: N" if there is no truthy message. *)
Theorem catalog_error_relayed (statusCode : N) (data : jsstring)
        (response message : value) :
  statusCode <> 200%N ->
  JSON_parse data = Some response ->
  errorField response (js "message") = Normal message ->
  (forall s, message = VString s -> s <> [] ->
             listModels (Response statusCode data) =
             {| Catalog.code := 500; Catalog.content := Catalog.NotListed s |})
  /\ (truthy message = false ->
      listModels (Response statusCode data) =
      {| Catalog.code := 500;
         Catalog.content :=
           Catalog.NotListed (js "Failed to list models: " ++ decimalOfN statusCode) |}).
Proof.
  intros Hstatus Hdata Hmessage.
  apply N.eqb_neq in Hstatus.
  unfold Catalog.listModels, Catalog.listAvailableModels, errorField in *.
  rewrite Hdata. cbn [bind]. rewrite Hstatus.
  destruct (Get response (js "error")) as [error|]; [|discriminate].
  cbn [bind] in *. rewrite Hmessage. cbn [bind]. split.
  - intros s -> Hs. apply truthy_string in Hs. rewrite Hs.
    cbn [ToString bind]. now rewrite Hs.
  - intros ->. cbn [ToString bind]. reflexivity.
Qed.

End CatalogProperties.

(** ** The page *)

Lemma trimStart_idempotent (s : jsstring) : trimStart (trimStart s) = trimStart s.
Proof.
  induction s as [|c s IH]; [reflexivity|].
  cbn [trimStart]. destruct (isWhiteSpace c) eqn:E; [exact IH|].
  cbn [trimStart]. now rewrite E.
Qed.

Lemma trimStart_suffix (s : jsstring) : exists dropped, s = dropped ++ trimStart s.
Proof.
  induction s as [|c s [dropped IH]]; [now exists []|].
  cbn [trimStart]. destruct (isWhiteSpace c).
  - exists (c :: dropped). cbn [app]. now rewrite <- IH.
  - now exists [].
Qed.

Lemma trimEnd_prefix (s : jsstring) : exists dropped, s = trimEnd s ++ dropped.
Proof.
  unfold trimEnd. destruct (trimStart_suffix (rev s)) as [dropped H].
  exists (rev dropped).
  rewrite <- rev_app_distr, <- H. now rewrite rev_involutive.
Qed.

Lemma trimStart_head (s : jsstring) (c : N) (rest : jsstring) :
  trimStart s = c :: rest -> isWhiteSpace c = false.
Proof.
  induction s as [|d s IH]; [discriminate|].
  cbn [trimStart]. destruct (isWhiteSpace d) eqn:E; [exact IH|].
  intros H. injection H as <- _. exact E.
Qed.

(** Trimming twice is trimming once. *)
Lemma trim_idempotent (s : jsstring) : trim (trim s) = trim s.
Proof.
  unfold trim.
  assert (trimStart (trimEnd (trimStart s)) = trimEnd (trimStart s)) as ->.
  { destruct (trimEnd_prefix (trimStart s)) as [dropped H].
    destruct (trimEnd (trimStart s)) as [|c rest] eqn:E; [reflexivity|].
    cbn [app] in H. apply trimStart_head in H.
    now apply trimStart_clean. }
  unfold trimEnd at 1 2. unfold trimEnd at 1.
  now rewrite rev_involutive, trimStart_idempotent.
Qed.

Lemma trim_shorter (s : jsstring) : (len (trim s) <= len s)%Z.
Proof.
  unfold trim, len.
  destruct (trimEnd_prefix (trimStart s)) as [d1 H1].
  destruct (trimStart_suffix s) as [d2 H2].
  apply (f_equal (@List.length N)) in H1. apply (f_equal (@List.length N)) in H2.
  rewrite length_app in H1, H2. lia.
Qed.

(** X17. Whatever is typed, the text the page posts passes the
    server's validation: the handler never answers 400 to it. *)
Theorem posted_text_passes (localeMax value text : jsstring)
        (exn_message : exn -> jsstring) (GEMINI_MODEL : jsstring)
        (remote : nat -> outcome) (w : world) :
  Client.validate localeMax value = inr text ->
  status (fst (analyze exn_message GEMINI_MODEL remote (textBody text) w))
  <> 400%N.
Proof.
  unfold Client.validate. intros H.
  destruct (truthy (VString (trim value))) eqn:Htruthy; [|discriminate].
  cbn [negb] in H.
  destruct (Client.MAX_CHARS <? len (trim value))%Z eqn:Hlong; [discriminate|].
  injection H as <-.
  apply truthy_string in Htruthy. apply Z.ltb_ge in Hlong.
  rewrite (@analyze_valid exn_message GEMINI_MODEL remote
             (textBody (trim value)) (trim value) w eq_refl);
    rewrite ?trim_idempotent; try assumption.
  destruct (callGeminiAPI exn_message remote (trim value) GEMINI_MODEL 0 3 w)
    as [[a|message] w1]; [discriminate|].
  destruct (modelNotFound message); [|discriminate].
  destruct (tryModels exn_message GEMINI_MODEL remote (trim value)
                      alternativeModels w1) as [[a|] w2]; discriminate.
Qed.

(** X18. While the button is enabled, that is for 1 to 10000 code
    units typed, [analyzeText] never reports a text that is too long:
    it posts the trimmed text, or asks for some text when only white
    space was typed. *)
Theorem enabled_button_posts (localeMax value : jsstring) :
  Client.buttonDisabled value = false ->
  (trim value = [] /\ Client.validate localeMax value = inl Client.pleaseEnter)
  \/ (trim value <> [] /\ Client.validate localeMax value = inr (trim value)).
Proof.
  unfold Client.buttonDisabled, Client.validate. intros H.
  apply orb_false_elim in H as [_ Hlong]. apply Z.ltb_ge in Hlong.
  destruct (truthy (VString (trim value))) eqn:Htruthy; cbn [negb].
  - right. split; [now apply truthy_string|].
    assert ((Client.MAX_CHARS <? len (trim value))%Z = false) as ->
        by (apply Z.ltb_ge; pose proof (trim_shorter value); lia).
    reflexivity.
  - left. split; [|reflexivity].
    destruct (trim value); [reflexivity|discriminate].
Qed.

Lemma escapeChar_clean (c : N) :
  occurrences 60 (Client.escapeChar c) = 0
  /\ occurrences 62 (Client.escapeChar c) = 0
  /\ occurrences 160 (Client.escapeChar c) = 0.
Proof.
  unfold Client.escapeChar, occurrences.
  destruct (N.eqb c 38) eqn:E1; [repeat split; reflexivity|].
  destruct (N.eqb c 160) eqn:E2; [repeat split; reflexivity|].
  destruct (N.eqb c 60) eqn:E3; [repeat split; reflexivity|].
  destruct (N.eqb c 62) eqn:E4; [repeat split; reflexivity|].
  apply N.eqb_neq in E2, E3, E4.
  cbn [count_occ].
  repeat split.
  - destruct (N.eq_dec c 60); [contradiction|reflexivity].
  - destruct (N.eq_dec c 62); [contradiction|reflexivity].
  - destruct (N.eq_dec c 160); [contradiction|reflexivity].
Qed.

Lemma occurrences_app (c : N) (s t : jsstring) :
  occurrences c (s ++ t) = occurrences c s + occurrences c t.
Proof. apply count_occ_app. Qed.

Lemma escapeHtml_clean (v : value) (s : jsstring) :
  Client.escapeHtml v = Normal s ->
  occurrences 60 s = 0 /\ occurrences 62 s = 0 /\ occurrences 160 s = 0.
Proof.
  assert (forall t, occurrences 60 (flat_map Client.escapeChar t) = 0
                    /\ occurrences 62 (flat_map Client.escapeChar t) = 0
                    /\ occurrences 160 (flat_map Client.escapeChar t) = 0) as Hflat.
  { induction t as [|c t (H1 & H2 & H3)]; [repeat split; reflexivity|].
    cbn [flat_map]. rewrite !occurrences_app, H1, H2, H3.
    destruct (escapeChar_clean c) as (C1 & C2 & C3).
    rewrite C1, C2, C3. auto. }
  unfold Client.escapeHtml. intros H.
  destruct v; try (injection H as <-; repeat split; reflexivity);
    invert_bind H; injection H as <-; apply Hflat.
Qed.

(** X19. What [escapeHtml] returns holds no "<", no ">" and no
    non-breaking space, whatever value it is given: markup in a theme
    cannot open or close a tag. *)
Theorem escapeHtml_safe (v : value) (s : jsstring) :
  Client.escapeHtml v = Normal s ->
  occurrences 60 s = 0 /\ occurrences 62 s = 0 /\ occurrences 160 s = 0.
Proof. apply escapeHtml_clean. Qed.

Lemma themeTags_count (themes : list value) (tags : list jsstring) :
  Client.themeTags themes = Normal tags ->
  List.length tags = List.length themes
  /\ occurrences 60 (List.concat tags) = 2 * List.length themes.
Proof.
  revert tags. induction themes as [|theme themes IH]; intros tags H.
  - injection H as <-. split; reflexivity.
  - cbn [Client.themeTags] in H.
    invert_bind H. rename v into escaped, E into Hescaped.
    invert_bind H. rename v into rest, E into Hrest.
    assert (tags = (Client.openTag ++ escaped ++ Client.closeTag) :: rest)
      as -> by congruence.
    destruct (IH rest Hrest) as [Hlength Hcount].
    destruct (escapeHtml_clean _ Hescaped) as (Hlt & _ & _).
    cbn [List.concat List.length].
    rewrite !occurrences_app, Hcount, Hlt, Hlength.
    change (occurrences 60 Client.openTag) with 1.
    change (occurrences 60 Client.closeTag) with 1.
    split; lia.
Qed.

(** X20. When [displayResults] goes through for an analysis whose
    [themes] is a non-empty array, the HTML written for the themes has
    exactly two "<" for each theme, those of its span: nothing a theme
    says is taken as markup.  When [themes] is missing, empty or no
    array, the placeholder is written. *)
Theorem themes_rendered (toLowerCase : jsstring -> jsstring)
        (analysis themes : value) (r : Client.rendering) :
  Client.displayResults toLowerCase analysis = Normal r ->
  Get analysis (js "themes") = Normal themes ->
  (forall ts, themes = VArray ts -> ts <> [] ->
              occurrences 60 (Client.themesHTML r) = 2 * List.length ts)
  /\ (isArray themes = false \/ themes = VArray [] ->
      Client.themesHTML r = Client.noThemes).
Proof.
  unfold Client.displayResults. intros H Hthemes.
  apply bind_Normal in H as (s & _ & H).
  apply bind_Normal in H as (sentiment & _ & H).
  rewrite Hthemes in H. cbn [bind] in H.
  apply bind_Normal in H as (html & Hhtml & H).
  apply bind_Normal in H as (t & _ & H).
  apply bind_Normal in H as (tone & _ & H).
  apply bind_Normal in H as (su & _ & H).
  apply bind_Normal in H as (summary & _ & H).
  assert (Client.themesHTML r = html) as -> by (injection H as <-; reflexivity).
  clear H. split.
  - intros ts -> Hts.
    assert ((0 <? Z.of_nat (List.length (elements (VArray ts))))%Z = true) as Hlen
        by (apply Z.ltb_lt; destruct ts; [congruence|cbn; lia]).
    rewrite Hlen in Hhtml. cbn [truthy isArray andb elements] in Hhtml.
    apply bind_Normal in Hhtml as (tags & Htags & Hhtml).
    assert (html = List.concat tags) as -> by congruence.
    now apply themeTags_count in Htags.
  - intros [Harray| ->].
    + rewrite Harray, andb_false_r in Hhtml. cbn [andb] in Hhtml. congruence.
    + change (Normal Client.noThemes = Normal html) in Hhtml. congruence.
Qed.

(** X21. [analyzeText] always shows something: an error message that
    is not empty, or the results.  The results are shown only when the
    text was posted, the response was [ok], its body was JSON with a
    truthy [success] and a truthy [analysis], and that analysis was
    rendered whole. *)
Theorem analyzeText_shows (exn_message : exn -> jsstring)
        (toLowerCase : jsstring -> jsstring) (localeMax : jsstring)
        (fetch : jsstring -> Client.fetched) (value : jsstring) :
  match Client.analyzeText exn_message toLowerCase localeMax fetch value with
  | Client.ErrorShown message => message <> []
  | Client.ResultShown r =>
      exists text body data success analysis,
        Client.validate localeMax value = inr text
        /\ fetch text = Client.Replied true body
        /\ JSON_parse body = Some data
        /\ Get data (js "success") = Normal success /\ truthy success = true
        /\ Get data (js "analysis") = Normal analysis /\ truthy analysis = true
        /\ Client.displayResults toLowerCase analysis = Normal r
  end.
Proof.
  unfold Client.analyzeText.
  destruct (Client.validate localeMax value) as [message|text] eqn:Hvalid.
  - unfold Client.validate in Hvalid.
    destruct (negb (truthy (VString (trim value)))); [injection Hvalid as <-; discriminate|].
    destruct (Client.MAX_CHARS <? len (trim value))%Z;
      [injection Hvalid as <-; discriminate|discriminate].
  - destruct (Client.receive exn_message toLowerCase (fetch text))
      as [message|r] eqn:Hreceive.
    + destruct (truthy (VString message)) eqn:T;
        [now apply truthy_string|discriminate].
    + unfold Client.receive in Hreceive.
      destruct (fetch text) as [message|ok body] eqn:Hfetch; [discriminate|].
      destruct (JSON_parse body) as [data|] eqn:Hdata; [|discriminate].
      destruct ok; cbn [negb] in Hreceive.
      * destruct (Get data (js "success")) as [success|] eqn:Hsuccess;
          [|discriminate].
        cbn [bind] in Hreceive. unfold andAlso in Hreceive.
        destruct (truthy success) eqn:Tsuccess.
        -- destruct (Get data (js "analysis")) as [analysis|] eqn:Hanalysis;
             [|discriminate].
           cbn [bind] in Hreceive.
           destruct (truthy analysis) eqn:Tanalysis; [|discriminate].
           destruct (Client.displayResults toLowerCase analysis) as [r'|e] eqn:Hr;
             [|discriminate].
           cbn [bind] in Hreceive. injection Hreceive as <-.
           exists text, body, data, success, analysis. repeat split; auto.
        -- cbn [bind] in Hreceive. rewrite Tsuccess in Hreceive. discriminate.
      * destruct (Get data (js "error")) as [error|]; [|discriminate].
        cbn [bind] in Hreceive.
        destruct (ToString _); discriminate.
Qed.

(* ================================================================== *)
(** * Further scenarios                                                *)
(* ================================================================== *)

(** The provider does not know the model. *)
Lemma remote_error_relayed_witness :
  fst (callGeminiAPI engine_message (replies [Response 404 notFound])
                     (js "I love my job") gemma 0 3 start) =
  Rejected (js "models/gemma-3-27b-it is not found for API version v1beta").
Proof.
  destruct (@remote_error_relayed engine_message (replies [Response 404 notFound])
              (js "I love my job") gemma 0 3 start 404 notFound
              (orUndefined (JSON_parse notFound))
              (VString (js "models/gemma-3-27b-it is not found for API version v1beta"))
              (VNumber 404%float))
    as (text & Hcall & Hmessage & _ & _).
  - reflexivity.
  - vm_compute. reflexivity.
  - discriminate.
  - left. discriminate.
  - vm_compute. reflexivity.
  - vm_compute. reflexivity.
  - rewrite Hcall. cbn [fst]. f_equal.
    apply (Hmessage _ eq_refl). discriminate.
Defined.

(** The socket hangs up. *)
Lemma transport_failure_answered_witness :
  analyze engine_message gemma (replies []) (textBody (js " I love my job ")) start =
  ({| status := 500; json := Failure (js "Request failed: socket hang up") |},
   requested start gemma (js "I love my job")).
Proof.
  refine (@transport_failure_answered engine_message gemma (replies [])
            (textBody (js " I love my job ")) (js " I love my job ") start
            (js "socket hang up") _ _ _ _ _).
  - reflexivity.
  - vm_compute. discriminate.
  - vm_compute. discriminate.
  - reflexivity.
  - vm_compute. reflexivity.
Defined.

(** The second detail is the first to name a delay. *)
Lemma first_retryDelay_wins_witness :
  extractRetryDelay (orUndefined (JSON_parse quotaSecond)) = 34%float.
Proof.
  refine (@first_retryDelay_wins (orUndefined (JSON_parse quotaSecond))
            [VObject [(jsq "@type", VString (js "type.googleapis.com/google.rpc.Help"))]]
            [] (VObject [(js "retryDelay", VString (js "34.07s"))])
            (VString (js "34.07s")) _ _ _ _).
  - vm_compute. reflexivity.
  - constructor; [|constructor]. exists VUndefined. split; reflexivity.
  - reflexivity.
  - reflexivity.
Defined.

Lemma retryDelay_whole_seconds_witness :
  extractRetryDelay (orUndefined (JSON_parse quotaSecond)) = Number_ofZ 34.
Proof.
  refine (@retryDelay_whole_seconds (orUndefined (JSON_parse quotaSecond))
            [VObject [(jsq "@type", VString (js "type.googleapis.com/google.rpc.Help"))]]
            [] (VObject [(js "retryDelay", VString (js "34.07s"))])
            (js "34") (js ".07s") _ _ _ _ _ _).
  - vm_compute. reflexivity.
  - constructor; [|constructor]. exists VUndefined. split; reflexivity.
  - reflexivity.
  - discriminate.
  - reflexivity.
  - reflexivity.
Defined.

(** A [null] among the details hides the delay named after it. *)
Lemma retryDelay_defaults_witness :
  extractRetryDelay (orUndefined (JSON_parse quotaNull)) = 30%float.
Proof.
  refine (proj2 (proj2 (retryDelay_defaults (orUndefined (JSON_parse quotaNull))))
            [] [VNull; VObject [(js "retryDelay", VString (js "5s"))]] _ _ _).
  - vm_compute. reflexivity.
  - constructor.
  - right. exists VNull, [VObject [(js "retryDelay", VString (js "5s"))]].
    eexists. split; reflexivity.
Defined.

Lemma lovesJob_plain : plain lovesJob.
Proof.
  apply Forall_forall. intros c Hin ->.
  assert (forallb (fun c => negb (N.eqb c 96)) lovesJob = true) as H
      by (vm_compute; reflexivity).
  rewrite forallb_forall in H. specialize (H _ Hin). discriminate.
Qed.

Lemma stripFence_unwraps_witness :
  stripFence (js "```json" ++ [LF] ++ lovesJob ++ [LF] ++ js "```") = trim lovesJob.
Proof. exact (proj1 (stripFence_unwraps lovesJob_plain)). Defined.

Lemma resolves_iff_usable_witness :
  exists a,
    fst (callGeminiAPI engine_message (replies [Response 200 (reply lovesJob)])
                       (js "I love my job") gemma 0 3 start) = Resolved a.
Proof.
  refine (proj2 (@resolves_iff_usable engine_message _ _ _ 0 3 start
                   (reply lovesJob) (orUndefined (JSON_parse (reply lovesJob)))
                   _ _) _).
  - reflexivity.
  - vm_compute. reflexivity.
  - exists lovesJob. split; [vm_compute; reflexivity|discriminate].
Defined.

(** The model answers with a bare number. *)
Lemma non_object_analysis_witness :
  fst (callGeminiAPI engine_message (replies [Response 200 (reply (js "42"))])
                     (js "I love my job") gemma 0 3 start) =
  Resolved {| sentiment := VString (js "neutral");
              themes := VArray [];
              tone := VString (js "Not specified");
              summary := VString (js "42") |}.
Proof.
  refine (proj2 (@non_object_analysis engine_message _ _ _ 0 3 start
                   (reply (js "42")) (orUndefined (JSON_parse (reply (js "42"))))
                   (js "42") (VNumber 42%float) _ _ _ _ _) _).
  - reflexivity.
  - vm_compute. reflexivity.
  - vm_compute. reflexivity.
  - discriminate.
  - vm_compute. reflexivity.
  - reflexivity.
Defined.

Lemma falsy_fields_defaulted_witness :
  exists a,
    fst (callGeminiAPI engine_message (replies [Response 200 (reply blankSentiment)])
                       (js "I love my job") gemma 0 3 start) = Resolved a
    /\ sentiment a = VString (js "neutral").
Proof.
  destruct (@falsy_fields_defaulted engine_message
              (replies [Response 200 (reply blankSentiment)])
              (js "I love my job") gemma 0 3 start
              (reply blankSentiment)
              (orUndefined (JSON_parse (reply blankSentiment)))
              blankSentiment
              [(js "sentiment", VString []);
               (js "themes", VArray []);
               (js "tone", VString (js "calm"));
               (js "summary", VString (js "Nothing stands out."))])
    as (a & Hcall & Hs & _ & _).
  - reflexivity.
  - vm_compute. reflexivity.
  - vm_compute. reflexivity.
  - discriminate.
  - vm_compute. reflexivity.
  - exists a. split; [exact Hcall|].
    apply (Hs (VString [])); reflexivity.
Defined.

(** A valid text reaches the provider, a number as text does not. *)
Lemma requests_iff_valid_witness :
  sent start < sent (snd (analyze engine_message gemma
                                  (replies [Response 200 (reply lovesJob)])
                                  (textBody (js " I love my job ")) start))
  /\ ~ sent start < sent (snd (analyze engine_message gemma
                                       (replies [Response 200 (reply lovesJob)])
                                       (VObject [(js "text", VNumber 42%float)])
                                       start)).
Proof.
  split.
  - apply (proj2 (requests_iff_valid engine_message gemma
                    (replies [Response 200 (reply lovesJob)])
                    (textBody (js " I love my job ")) start)).
    exists (js " I love my job ").
    split; [reflexivity|]. split; vm_compute; discriminate.
  - intros H.
    apply (proj1 (requests_iff_valid engine_message gemma
                    (replies [Response 200 (reply lovesJob)])
                    (VObject [(js "text", VNumber 42%float)]) start)) in H.
    destruct H as (s & H & _). vm_compute in H. discriminate.
Defined.

Lemma analyze_requests_witness :
  exists later,
    trace (snd (analyze engine_message gemma
                        (replies [Response 404 notFound; Response 404 notFound;
                                  Response 200 (reply lovesJob)])
                        (textBody (js " I love my job ")) start)) =
    trace start ++ later
    /\ Forall (carries (js "I love my job") (gemma :: alternativeModels)) later.
Proof.
  exact (@analyze_requests engine_message gemma
           (replies [Response 404 notFound; Response 404 notFound;
                     Response 200 (reply lovesJob)])
           (textBody (js " I love my job ")) (js " I love my job ") start eq_refl).
Defined.


Lemma catalog_error_relayed_witness :
  Catalog.listModels engine_message
    (js "https://generativelanguage.googleapis.com") (js "v1beta") gemma
    (Response 503 codeOnly) =
  {| Catalog.code := 500;
     Catalog.content := Catalog.NotListed (js "Failed to list models: 503") |}.
Proof.
  refine (proj2 (@catalog_error_relayed engine_message
                   (js "https://generativelanguage.googleapis.com") (js "v1beta")
                   gemma 503 codeOnly (orUndefined (JSON_parse codeOnly))
                   VUndefined _ _ _) _).
  - discriminate.
  - vm_compute. reflexivity.
  - vm_compute. reflexivity.
  - reflexivity.
Defined.

(** What is typed with spaces around it is posted without them, and
    accepted. *)
Lemma posted_text_passes_witness :
  status (fst (analyze engine_message gemma
                       (replies [Response 200 (reply lovesJob)])
                       (textBody (js "I love my job")) start)) <> 400%N.
Proof.
  refine (@posted_text_passes (js "10,000") (js "  I love my job  ")
            (js "I love my job") engine_message gemma
            (replies [Response 200 (reply lovesJob)]) start _).
  vm_compute. reflexivity.
Defined.

Lemma enabled_button_posts_witness :
  Client.validate (js "10,000") (js "  I love my job  ") = inr (js "I love my job")
  /\ Client.validate (js "10,000") (js "   ") = inl Client.pleaseEnter.
Proof.
  split.
  - destruct (@enabled_button_posts (js "10,000") (js "  I love my job  ") eq_refl)
      as [[H _]|[_ H]]; [vm_compute in H; discriminate|exact H].
  - destruct (@enabled_button_posts (js "10,000") (js "   ") eq_refl)
      as [[_ H]|[H _]]; [exact H|vm_compute in H; now elim H].
Defined.

Lemma escapeHtml_safe_witness :
  occurrences 60 (js "&lt;b&gt;R&amp;D&lt;/b&gt;") = 0
  /\ occurrences 62 (js "&lt;b&gt;R&amp;D&lt;/b&gt;") = 0
  /\ occurrences 160 (js "&lt;b&gt;R&amp;D&lt;/b&gt;") = 0.
Proof.
  apply (@escapeHtml_safe (VString (js "<b>R&D</b>"))).
  vm_compute. reflexivity.
Defined.

(** Two themes, one of them with markup: four "<", those of the spans. *)
Lemma themes_rendered_witness :
  exists r,
    Client.displayResults asciiLower
      (VObject [(js "sentiment", VString (js "Positive"));
                (js "themes", VArray [VString (js "<b>work</b>"); VString (js "R&D")]);
                (js "tone", VString (js "upbeat"))]) = Normal r
    /\ Client.sentimentText r = js "positive"
    /\ Client.summaryText r = js "No summary available"
    /\ occurrences 60 (Client.themesHTML r) = 4.
Proof.
  eexists. split; [vm_compute; reflexivity|].
  split; [reflexivity|]. split; [reflexivity|].
  refine (proj1 (@themes_rendered asciiLower
                   (VObject [(js "sentiment", VString (js "Positive"));
                             (js "themes", VArray [VString (js "<b>work</b>");
                                                     VString (js "R&D")]);
                             (js "tone", VString (js "upbeat"))])
                   (VArray [VString (js "<b>work</b>"); VString (js "R&D")])
                   _ _ _)
            [VString (js "<b>work</b>"); VString (js "R&D")] eq_refl _).
  - vm_compute. reflexivity.
  - reflexivity.
  - discriminate.
Defined.

(** The page at work: the server's reply is rendered, and a failure of
    the network is reported with the browser's message. *)
Example analyzeText_samples :
  (exists r,
      Client.analyzeText engine_message asciiLower (js "10,000")
        (fun _ => Client.Replied true served) (js " I love my job ")
      = Client.ResultShown r
      /\ Client.sentimentClass r = js "sentiment-value positive"
      /\ Client.themesHTML r =
         jsq "<span class='theme-tag'>&lt;b&gt;work&lt;/b&gt;</span><span class='theme-tag'>R&amp;D</span>")
  /\ Client.analyzeText engine_message asciiLower (js "10,000")
       (fun _ => Client.FetchFailed (js "Failed to fetch")) (js " I love my job ")
     = Client.ErrorShown (js "Failed to fetch")
  /\ Client.analyzeText engine_message asciiLower (js "10,000")
       (fun _ => Client.Replied false
                   (jsq "{'success':false,'error':'Please provide valid text to analyze'}"))
       (js "x")
     = Client.ErrorShown pleaseProvide.
Proof.
  split; [eexists; split; [vm_compute; reflexivity|split; reflexivity]|].
  split; vm_compute; reflexivity.
Qed.
